(** * OllamaToGGUF: the recombination engine of [OllamaToGGUF.py]

    A shallow embedding of [get_model_size], [recombine_model],
    [recombine_model_chunked] and [main], together with the small part of
    Python and of the file system that these functions rely on, and the
    properties of the script that the specification states.

    Layout of the file:
    - [Py]: exceptions, decoded JSON values and the Python operations on them
      that the script uses ([.get], subscripts, [len], [split], iteration);
    - [Path]: [os.sep.join], [os.path.dirname], [os.path.basename];
    - [World]: the file system as a finite map from path to node, the console
      output as a list of structured events, and a log of file-system calls;
    - [Run]: the monad the script runs in (state, exceptions, divergence);
    - [Os]: [os.path.exists], [os.path.getsize], [open], [os.makedirs], ...;
    - [Engine]: the functions of the script;
    - [Json]: a small JSON decoder for the examples;
    - [Spec]: the vocabulary of the properties;
    - [Demo]: a small model store, on which the theorems are put to work;
    - the theorems. *)

From Stdlib Require Import ZArith List String Ascii Bool Lia Floats.
From Stdlib.Strings Require Import Byte.
From stdpp Require Import base option list strings pretty gmap.

Set Warnings "-register-all".

Local Open Scope Z_scope.

(* ===================================================================== *)
(** ** Python values and exceptions *)
(* ===================================================================== *)

Module Py.

(** The exceptions the script can meet.  [ValueError msg cause] is
    [raise ValueError(msg) from cause]. *)
Inductive exn : Type :=
| ValueError (msg : string) (cause : option exn)
| AssertionError (msg : string)
| KeyError (key : string)
| TypeError
| AttributeError
| IndexError
| ZeroDivisionError
| JSONDecodeError
| FileNotFoundError (path : string)
| FileExistsError (path : string)
| IsADirectoryError (path : string)
| NotADirectoryError (path : string)
| OSError (path : string)
| EOFError.

(** What [json.load] returns: [None], [bool], [int], [float], [str], [list]
    and [dict] (insertion ordered; a key is looked up from the front). *)
Inductive json : Type :=
| JNull
| JBool (b : bool)
| JInt (n : Z)
| JFloat (f : float)
| JStr (s : string)
| JArr (items : list json)
| JObj (members : list (string * json)).

(** Truth value of an object, as in [if not config]. *)
Definition truthy (v : json) : bool :=
  match v with
  | JNull => false
  | JBool b => b
  | JInt n => negb (Z.eqb n 0)
  | JFloat f => negb (PrimFloat.eqb f 0%float)
  | JStr s => negb (String.eqb s EmptyString)
  | JArr items => match items with [] => false | _ => true end
  | JObj members => match members with [] => false | _ => true end
  end.

Fixpoint assoc (k : string) (members : list (string * json)) : option json :=
  match members with
  | [] => None
  | (k', v) :: rest => if String.eqb k k' then Some v else assoc k rest
  end.

(** [o.get(k)]: only a [dict] has the method; a missing key gives [None]. *)
Definition get (o : json) (k : string) : exn + json :=
  match o with
  | JObj members => inr (default JNull (assoc k members))
  | _ => inl AttributeError
  end.

(** [o[k]] with a string key. *)
Definition getitem (o : json) (k : string) : exn + json :=
  match o with
  | JObj members =>
      match assoc k members with
      | Some v => inr v
      | None => inl (KeyError k)
      end
  | _ => inl TypeError
  end.

(** [len(o)]. *)
Definition len (o : json) : exn + Z :=
  match o with
  | JStr s => inr (Z.of_nat (String.length s))
  | JArr items => inr (Z.of_nat (length items))
  | JObj members => inr (Z.of_nat (length members))
  | _ => inl TypeError
  end.

(** Sequencing of steps that may raise. *)
Definition and_then {A B} (r : exn + A) (k : A -> exn + B) : exn + B :=
  match r with
  | inl e => inl e
  | inr a => k a
  end.

(** [try: r except Exception as e: raise h(e)]. *)
Definition reraise {A} (r : exn + A) (h : exn -> exn) : exn + A :=
  match r with
  | inl e => inl (h e)
  | inr a => inr a
  end.

Definition assert (b : bool) (msg : string) : exn + unit :=
  if b then inr tt else inl (AssertionError msg).

Definition isinstance_str (o : json) : bool :=
  match o with JStr _ => true | _ => false end.

(** [o.get(k, d)]. *)
Definition get_default (o : json) (k : string) (d : json) : exn + json :=
  match o with
  | JObj members => inr (default d (assoc k members))
  | _ => inl AttributeError
  end.

(** Does [except ValueError] take the exception?  [json.JSONDecodeError] is
    a subclass of [ValueError]. *)
Definition is_ValueError (e : exn) : bool :=
  match e with
  | ValueError _ _ | JSONDecodeError => true
  | _ => false
  end.

(** [s.split(sep)] for a one-character separator: never the empty list. *)
Fixpoint split_on (sep : ascii) (s : string) : list string :=
  match s with
  | EmptyString => [EmptyString]
  | String c rest =>
      if Ascii.eqb c sep then EmptyString :: split_on sep rest
      else match split_on sep rest with
           | h :: t => String c h :: t
           | [] => [String c EmptyString]
           end
  end.

(** [o.split(':')]: only a [str] has the method. *)
Definition split_colon (o : json) : exn + list string :=
  match o with
  | JStr s => inr (split_on ":"%char s)
  | _ => inl AttributeError
  end.

(** [parts[1]] and [parts[-1]]. *)
Definition index1 (parts : list string) : exn + string :=
  match parts with
  | _ :: x :: _ => inr x
  | _ => inl IndexError
  end.

Definition index_last (parts : list string) : exn + string :=
  match List.last (map Some parts) None with
  | Some x => inr x
  | None => inl IndexError
  end.

(** [for x in o]: a list gives its items, a dict its keys, a string its
    characters; nothing else is iterable. *)
Fixpoint chars (s : string) : list json :=
  match s with
  | EmptyString => []
  | String c rest => JStr (String c EmptyString) :: chars rest
  end.

Definition iter (o : json) : exn + list json :=
  match o with
  | JArr items => inr items
  | JObj members => inr (map (fun kv => JStr (fst kv)) members)
  | JStr s => inr (chars s)
  | _ => inl TypeError
  end.

End Py.

Declare Scope py_scope.
Delimit Scope py_scope with py.
Notation "x <~ r ;; k" := (Py.and_then r (fun x => k))
  (at level 100, r at next level, right associativity) : py_scope.

(* ===================================================================== *)
(** ** Paths *)
(* ===================================================================== *)

Module Path.

(** [os.sep.join([a, b])] on a POSIX system. *)
Definition join (a b : string) : string := a +:+ "/" +:+ b.

Fixpoint all_slashes (s : string) : bool :=
  match s with
  | EmptyString => true
  | String c rest => Ascii.eqb c "/"%char && all_slashes rest
  end.

(** [s.rstrip('/')]. *)
Fixpoint rstrip_slash (s : string) : string :=
  match s with
  | EmptyString => EmptyString
  | String c rest =>
      if all_slashes (String c rest) then EmptyString
      else String c (rstrip_slash rest)
  end.

(** [posixpath.basename]: what follows the last slash. *)
Definition basename (p : string) : string :=
  List.last (Py.split_on "/"%char p) EmptyString.

(** [p[:i]] for [i = p.rfind('/') + 1]: everything up to and including the
    last slash. *)
Definition head (p : string) : string :=
  let parts := Py.split_on "/"%char p in
  String.concat EmptyString (map (fun x => x +:+ "/") (removelast parts)).

(** [posixpath.dirname]. *)
Definition dirname (p : string) : string :=
  let h := head p in
  if negb (String.eqb h EmptyString) && negb (all_slashes h) then rstrip_slash h else h.

End Path.

(* ===================================================================== *)
(** ** The world the script runs in *)
(* ===================================================================== *)

Module World.

(** What a path can name.  A path is identified with its spelling: there
    are no links, and [..] is a name like any other.
    - [Dir]: a directory; [open] raises [IsADirectoryError].
    - [File data]: a regular file that reads back [data].
    - [Faulty st_size readable]: a file that [stat] reports as [st_size]
      bytes long, that delivers [readable] and then fails any further read
      with [OSError] (no read permission when [readable] is empty, a device
      error otherwise); it cannot be opened for writing. *)
Inductive node : Type :=
| Dir (st_size : Z)
| File (data : list byte)
| Faulty (st_size : Z) (readable : list byte).

Definition st_size_of (n : node) : Z :=
  match n with
  | Dir sz => sz
  | File data => Z.of_nat (length data)
  | Faulty sz _ => sz
  end.

(** The size [os.makedirs] gives a fresh directory. *)
Definition fresh_dir : node := Dir 4096.

(** File-system calls, logged in the order in which they are made. *)
Inductive access : Type :=
| Exists (path : string)
| Getsize (path : string)
| OpenRead (path : string)
| OpenWrite (path : string)
| Makedirs (path : string)
| Remove (path : string).

(** What the script writes to the console.  An event keeps the values that
    the message is formatted from, not the formatted text: sizes stay in
    bytes and [Progress] keeps both operands of
    [int(bytes_processed / file_size * 100)]. *)
Inductive event : Type :=
| Msg_large_model (total_size : Z)
| Msg_standard
| Msg_reading_layers
| Msg_chunks (chunk_size : Z)
| Layer_index (layer_index : nat)
| Status_reading (modelName : string) (mediaType : Py.json)
                 (source_blob : string) (file_size : option Z)
| Status_success (modelName : string) (mediaType : Py.json) (bytes : Z)
| Status_failed (modelName : string) (mediaType : Py.json)
                (source_blob : string) (excp : Py.exn)
| Blob_not_found (modelName : string) (mediaType : Py.json)
                 (source_blob : string)
| Progress (bytes_processed file_size : Z)
| Newline
| Msg_errors_occurred (modelName : string)
| Msg_no_layers (modelName : string)
| Msg_created (final_output_filepath : string) (size : Z)
| Msg_write_error (excp : Py.exn)
| Msg_chunked_error (excp : Py.exn)
| Msg_removed_incomplete
| Msg_no_manifests
| Msg_available
| Listing (index : Z) (modelName manifest_filename : string)
          (modelQuant : Py.json) (model_size : option Z)
| Prompt
| Msg_exiting
| Msg_converted (modelName : string)
| Msg_conversion_failed (modelName : string)
| Msg_invalid_choice
| Msg_invalid_input.

Record world : Type := mkWorld {
  fs : gmap string node;
  out : list event;
  io : list access
}.

(** A run starts with nothing printed and no call made. *)
Definition boot (files : gmap string node) : world := mkWorld files [] [].

End World.

(* ===================================================================== *)
(** ** The monad of the script: state, exceptions, divergence *)
(* ===================================================================== *)

Module Run.
Import World.

(** How a computation ends.  [Diverge] is a loop that never ends; no
    [except] clause sees it. *)
Inductive res (A : Type) : Type :=
| Ok (a : A)
| Raise (e : Py.exn)
| Diverge.
Arguments Ok {A} a.
Arguments Raise {A} e.
Arguments Diverge {A}.

Definition M (A : Type) : Type := world -> res A * world.

Definition ret {A} (a : A) : M A := fun w => (Ok a, w).

Definition bind {A B} (m : M A) (k : A -> M B) : M B :=
  fun w =>
    match m w with
    | (Ok a, w') => k a w'
    | (Raise e, w') => (Raise e, w')
    | (Diverge, w') => (Diverge, w')
    end.

Definition raise {A} (e : Py.exn) : M A := fun w => (Raise e, w).

Definition diverge {A} : M A := fun w => (Diverge, w).

(** [try: m except Exception as e: h e]. *)
Definition catch {A} (m : M A) (h : Py.exn -> M A) : M A :=
  fun w =>
    match m w with
    | (Raise e, w') => h e w'
    | r => r
    end.

Definition lift {A} (r : Py.exn + A) : M A :=
  match r with
  | inl e => raise e
  | inr a => ret a
  end.

Definition print (ev : event) : M unit :=
  fun w => (Ok tt, mkWorld (fs w) (out w ++ [ev]) (io w)).

Definition call (a : access) : M unit :=
  fun w => (Ok tt, mkWorld (fs w) (out w) (io w ++ [a])).

Definition lookup_node (p : string) : M (option node) :=
  fun w => (Ok (fs w !! p), w).

Definition store (p : string) (n : node) : M unit :=
  fun w => (Ok tt, mkWorld (<[p := n]> (fs w)) (out w) (io w)).

Definition unlink (p : string) : M unit :=
  fun w => (Ok tt, mkWorld (delete p (fs w)) (out w) (io w)).

Definition when (b : bool) (m : M unit) : M unit :=
  if b then m else ret tt.

End Run.

Declare Scope run_scope.
Delimit Scope run_scope with run.
Notation "x <- m ;; k" := (Run.bind m (fun x => k))
  (at level 100, m at next level, right associativity) : run_scope.
Notation "m ;; k" := (Run.bind m (fun _ => k))
  (at level 100, right associativity) : run_scope.
Local Open Scope run_scope.

(* ===================================================================== *)
(** ** The operating-system calls the script makes *)
(* ===================================================================== *)

Module Os.
Import World Run.

(** [os.path.exists(p)]. *)
Definition path_exists (p : string) : M bool :=
  call (Exists p);;
  n <- lookup_node p;;
  ret (bool_decide (is_Some n)).

(** [os.path.getsize(p)]. *)
Definition getsize (p : string) : M Z :=
  call (Getsize p);;
  n <- lookup_node p;;
  match n with
  | Some n => ret (st_size_of n)
  | None => raise (Py.FileNotFoundError p)
  end.

(** [with open(p, 'rb') as f: f.read()]: the whole file or an exception. *)
Definition read_all (p : string) : M (list byte) :=
  call (OpenRead p);;
  n <- lookup_node p;;
  match n with
  | None => raise (Py.FileNotFoundError p)
  | Some (Dir _) => raise (Py.IsADirectoryError p)
  | Some (File data) => ret data
  | Some (Faulty _ _) => raise (Py.OSError p)
  end.

(** [open(p, 'rb')]: the handle is the path and a position kept by the
    caller. *)
Definition open_rb (p : string) : M unit :=
  call (OpenRead p);;
  n <- lookup_node p;;
  match n with
  | None => raise (Py.FileNotFoundError p)
  | Some (Dir _) => raise (Py.IsADirectoryError p)
  | Some (File _) | Some (Faulty _ _) => ret tt
  end.

Fixpoint take_upto (n : Z) (l : list byte) : list byte :=
  match l with
  | [] => []
  | b :: rest => if Z.leb n 0 then [] else b :: take_upto (n - 1) rest
  end.

(** What [f.read(n)] returns when [rest] is what is left of the file: all of
    it for a negative [n], at most [n] bytes otherwise. *)
Definition read_bytes (n : Z) (rest : list byte) : list byte :=
  if Z.ltb n 0 then rest else take_upto n rest.

(** [f.read(n)] at position [pos] of the file at [p], read from what the
    file holds now. *)
Definition read_chunk (p : string) (pos : nat) (n : Z) : M (list byte) :=
  nd <- lookup_node p;;
  match nd with
  | Some (File data) => ret (read_bytes n (drop pos data))
  | Some (Faulty _ readable) =>
      match drop pos readable with
      | [] => raise (Py.OSError p)
      | rest => ret (read_bytes n rest)
      end
  | Some (Dir _) => raise (Py.IsADirectoryError p)
  | None => raise (Py.OSError p)
  end.

(** The bytes a reader can still get from [p], plus one: a bound on the
    number of [read] calls of a loop that reads [p] to its end while nobody
    writes to [p]. *)
Definition reads_bound (p : string) : M nat :=
  nd <- lookup_node p;;
  match nd with
  | Some (File data) => ret (S (length data))
  | Some (Faulty _ readable) => ret (S (length readable))
  | _ => ret 1%nat
  end.

(** Is the directory that [p] lies in there?  The empty directory name is
    the current directory. *)
Definition parent_is_dir (files : gmap string node) (p : string) : bool :=
  let d := Path.dirname p in
  if String.eqb d EmptyString then true
  else match files !! d with
       | Some (Dir _) => true
       | _ => false
       end.

(** [open(p, 'wb')]: creates the file or truncates it. *)
Definition open_wb (p : string) : M unit :=
  call (OpenWrite p);;
  n <- lookup_node p;;
  match n with
  | Some (Dir _) => raise (Py.IsADirectoryError p)
  | Some (Faulty _ _) => raise (Py.OSError p)
  | Some (File _) => store p (File [])
  | None =>
      fun w =>
        if parent_is_dir (fs w) p then store p (File []) w
        else raise (Py.FileNotFoundError p) w
  end.

(** [f.write(chunk)] on the file opened at [p]; the bytes reach the file at
    once.  A write to a regular file that has been opened goes through: a
    device that fills up or fails during the write is outside the model. *)
Definition write (p : string) (chunk : list byte) : M unit :=
  n <- lookup_node p;;
  match n with
  | Some (File data) => store p (File (data ++ chunk))
  | _ => raise (Py.OSError p)
  end.

(** [os.makedirs(p)]: makes [p] and the directories above it that are not
    there yet. *)
Fixpoint mkdirs (fuel : nat) (p : string) (files : gmap string node)
  : Py.exn + gmap string node :=
  match files !! p with
  | Some (Dir _) => inr files
  | Some _ => inl (Py.NotADirectoryError p)
  | None =>
      let d := Path.dirname p in
      if String.eqb d EmptyString || String.eqb d p then inr (<[p := fresh_dir]> files)
      else
        match fuel with
        | O => inl (Py.OSError p)
        | S fuel' =>
            match mkdirs fuel' d files with
            | inl e => inl e
            | inr files' => inr (<[p := fresh_dir]> files')
            end
        end
  end.

Definition makedirs (p : string) : M unit :=
  call (Makedirs p);;
  fun w =>
    match fs w !! p with
    | Some _ => raise (Py.FileExistsError p) w
    | None =>
        match mkdirs (String.length p) p (fs w) with
        | inl e => raise e w
        | inr files' => (Ok tt, mkWorld files' (out w) (io w))
        end
    end.

(** [os.remove(p)]. *)
Definition remove (p : string) : M unit :=
  call (Remove p);;
  n <- lookup_node p;;
  match n with
  | None => raise (Py.FileNotFoundError p)
  | Some (Dir _) => raise (Py.IsADirectoryError p)
  | Some _ => unlink p
  end.

End Os.

(* ===================================================================== *)
(** ** The script *)
(* ===================================================================== *)

Module Engine.
Import World Run Os.

Section Script.

(** [json.loads] on the bytes of a file ([None]: the text is not JSON), and
    the builtin [str] on a decoded value.  Both are Python's; the engine is
    the same whatever they are. *)
Variable json_loads : list byte -> option Py.json.
Variable py_str : Py.json -> string.

(** [with open(p) as f: json.load(f)]. *)
Definition json_load (p : string) : M Py.json :=
  text <- read_all p;;
  match json_loads text with
  | Some v => ret v
  | None => raise Py.JSONDecodeError
  end.

Definition byte_len (content : list byte) : Z := Z.of_nat (length content).

(** The lines shared by the three loops over the layers:
    [digest = layer_info['digest']], [sha = digest.split(':')[1]],
    [full_sha = f'sha256-{sha}'],
    [source_blob = os.sep.join([blob_directory, str(full_sha)])]. *)
Definition source_blob_of (blob_directory : string) (layer_info : Py.json)
  : Py.exn + string :=
  (digest <~ Py.getitem layer_info "digest";;
   parts <~ Py.split_colon digest;;
   sha <~ Py.index1 parts;;
   inr (Path.join blob_directory ("sha256-" +:+ sha)))%py.

(** *** [get_model_size] *)

Fixpoint sum_layer_sizes (items : list Py.json) (blob_directory : string)
    (total_size : Z) : M Z :=
  match items with
  | [] => ret total_size
  | layer_info :: rest =>
      source_blob <- lift (source_blob_of blob_directory layer_info);;
      found <- path_exists source_blob;;
      if found then
        size <- getsize source_blob;;
        sum_layer_sizes rest blob_directory (total_size + size)
      else sum_layer_sizes rest blob_directory total_size
  end.

Definition get_model_size (layers : Py.json) (blob_directory : string) : M Z :=
  items <- lift (Py.iter layers);;
  sum_layer_sizes items blob_directory 0.

(** *** The in-memory part of [recombine_model] (from "Using standard
    processing" to the end of the function) *)

(** The body of [for layer_index, layer_info in enumerate(layers)], with
    [layer_contents] and [errors_occurred] as the state of the loop. *)
Fixpoint read_layers (items : list Py.json) (layer_index : nat)
    (blob_directory modelName : string)
    (layer_contents : list (list byte)) (errors_occurred : bool)
  : M (list (list byte) * bool) :=
  match items with
  | [] => ret (layer_contents, errors_occurred)
  | layer_info :: rest =>
      print (Layer_index layer_index);;
      mediaType <- lift (Py.getitem layer_info "mediaType");;
      source_blob <- lift (source_blob_of blob_directory layer_info);;
      st <- catch
              (found <- path_exists source_blob;;
               if negb found then raise (Py.FileNotFoundError source_blob)
               else
                 print (Status_reading modelName mediaType source_blob None);;
                 content <- read_all source_blob;;
                 print (Status_success modelName mediaType (byte_len content));;
                 ret (layer_contents ++ [content], errors_occurred))
              (fun excp =>
                 print (Status_failed modelName mediaType source_blob excp);;
                 ret (layer_contents, true));;
      read_layers rest (S layer_index) blob_directory modelName
                  (fst st) (snd st)
  end.

(** The [try] block that writes the output file. *)
Definition write_combined (layer_contents : list (list byte))
    (target_subdir combined_filename : string) : M bool :=
  catch
    (let combined_content := concat layer_contents in
     found <- path_exists target_subdir;;
     when (negb found) (makedirs target_subdir);;
     let final_output_filepath :=
       Path.join target_subdir combined_filename in
     open_wb final_output_filepath;;
     write final_output_filepath combined_content;;
     print (Msg_created final_output_filepath (byte_len combined_content));;
     ret true)
    (fun excp => print (Msg_write_error excp);; ret false).

Definition recombine_model_in_memory (blob_directory : string)
    (layers : Py.json) (modelName target_subdir combined_filename : string)
  : M bool :=
  print Msg_standard;;
  print Msg_reading_layers;;
  items <- lift (Py.iter layers);;
  st <- read_layers items 0 blob_directory modelName [] false;;
  let layer_contents := fst st in
  let errors_occurred := snd st in
  if errors_occurred then
    print (Msg_errors_occurred modelName);; ret false
  else
    match layer_contents with
    | [] => print (Msg_no_layers modelName);; ret false
    | _ => write_combined layer_contents target_subdir combined_filename
    end.

(** *** [recombine_model_chunked] *)

(** The [while True] loop.  [pos] is the position of [layer_fobj].  The loop
    is given the bound of [reads_bound]; running out of it is a loop that
    goes on for ever, which takes a blob that grows while it is read. *)
Fixpoint copy_chunks (fuel : nat) (source_blob final_output_filepath : string)
    (chunk_size file_size : Z) (pos : nat) (bytes_processed : Z) : M unit :=
  match fuel with
  | O => diverge
  | S fuel' =>
      chunk <- read_chunk source_blob pos chunk_size;;
      match chunk with
      | [] => ret tt
      | _ =>
          write final_output_filepath chunk;;
          let bytes_processed := bytes_processed + byte_len chunk in
          (if Z.eqb file_size 0 then raise Py.ZeroDivisionError
           else print (Progress bytes_processed file_size));;
          copy_chunks fuel' source_blob final_output_filepath
                      chunk_size file_size
                      (pos + length chunk) bytes_processed
      end
  end.

(** The [for] loop inside [with open(final_output_filepath, 'wb')].  The
    result is [false] when the loop was left by [return False]. *)
Fixpoint copy_layers (items : list Py.json) (layer_index : nat)
    (blob_directory modelName final_output_filepath : string)
    (chunk_size : Z) : M bool :=
  match items with
  | [] => ret true
  | layer_info :: rest =>
      print (Layer_index layer_index);;
      mediaType <- lift (Py.getitem layer_info "mediaType");;
      source_blob <- lift (source_blob_of blob_directory layer_info);;
      found <- path_exists source_blob;;
      if negb found then
        print (Blob_not_found modelName mediaType source_blob);; ret false
      else
        processed <-
          catch
            (file_size <- getsize source_blob;;
             print (Status_reading modelName mediaType source_blob
                                   (Some file_size));;
             open_rb source_blob;;
             fuel <- reads_bound source_blob;;
             copy_chunks fuel source_blob final_output_filepath
                         chunk_size file_size 0 0;;
             print Newline;;
             print (Status_success modelName mediaType file_size);;
             ret true)
            (fun excp =>
               print (Status_failed modelName mediaType source_blob excp);;
               ret false);;
        if processed then
          copy_layers rest (S layer_index) blob_directory modelName
                      final_output_filepath chunk_size
        else ret false
  end.

Definition default_chunk_size : Z := 16 * 1024 * 1024.

Definition recombine_model_chunked (blob_directory : string)
    (layers : Py.json) (modelName target_subdir combined_filename : string)
    (chunk_size : Z) : M bool :=
  print (Msg_chunks chunk_size);;
  found <- path_exists target_subdir;;
  when (negb found) (makedirs target_subdir);;
  let final_output_filepath := Path.join target_subdir combined_filename in
  catch
    (open_wb final_output_filepath;;
     items <- lift (Py.iter layers);;
     completed <- copy_layers items 0 blob_directory modelName
                              final_output_filepath chunk_size;;
     if completed then
       final_size <- getsize final_output_filepath;;
       print (Msg_created final_output_filepath final_size);;
       ret true
     else ret false)
    (fun excp =>
       print (Msg_chunked_error excp);;
       found <- path_exists final_output_filepath;;
       when found
         (catch (remove final_output_filepath;; print Msg_removed_incomplete)
                (fun _ => ret tt));;
       ret false).

(** *** [recombine_model] *)

Definition large_file_threshold : Z := 1 * 1024 * 1024 * 1024.

(** [total_size > large_file_threshold]. *)
Definition use_chunked (total_size : Z) : bool :=
  Z.gtb total_size large_file_threshold.

(** From [config = obj.get('config')] to [sha_file = ...]: the path of the
    configuration blob. *)
Definition sha_file_of (blob_directory : string) (obj : Py.json)
  : Py.exn + string :=
  (config <~ Py.get obj "config";;
   if negb (Py.truthy config) then
     inl (Py.ValueError "Config section missing from JSON." None)
   else
     digest <~ Py.get config "digest";;
     if negb (Py.truthy digest) then
       inl (Py.ValueError "Digest missing from config section." None)
     else
       parts <~ Py.split_colon digest;;
       sha_value <~ Py.index_last parts;;
       inr (Path.join blob_directory ("sha256-" +:+ sha_value)))%py.

(** The [try] block around [config_data['file_type']]. *)
Definition file_type_of (config_data : Py.json) : Py.exn + string :=
  Py.reraise
    (modelQuant <~ Py.getitem config_data "file_type";;
     n <~ Py.len modelQuant;;
     _ <~ Py.assert (Z.gtb n 0) "Model quantization type cannot be empty.";;
     match modelQuant with
     | Py.JStr s => inr s
     | _ => inl (Py.AssertionError "Model quantization type must be string.")
     end)%py
    (fun e =>
       Py.ValueError "Invalid or missing `file_type` parameter." (Some e)).

(** The [try] block around [config_data['model_type']]. *)
Definition model_type_of (config_data : Py.json) : Py.exn + string :=
  match Py.getitem config_data "model_type" with
  | inr v => inr (py_str v)
  | inl (Py.KeyError _) => inr "unknown"
  | inl e => inl e
  end.

Definition recombine_model
    (manifest_path blob_directory output_directory : string) : M bool :=
  obj <- json_load manifest_path;;
  sha_file <- lift (sha_file_of blob_directory obj);;
  config_data <- json_load sha_file;;
  modelQuant <- lift (file_type_of config_data);;
  trained_on <- lift (model_type_of config_data);;
  layers <- lift (Py.get obj "layers");;
  if negb (Py.truthy layers) then
    raise (Py.ValueError "Layers section is required but missing." None)
  else
    let modelName := Path.basename (Path.dirname manifest_path) in
    let target_subdir := Path.join output_directory modelName in
    let combined_filename :=
      modelName +:+ "-" +:+ trained_on +:+ "-" +:+ modelQuant +:+ ".gguf" in
    total_size <- get_model_size layers blob_directory;;
    if use_chunked total_size then
      print (Msg_large_model total_size);;
      recombine_model_chunked blob_directory layers modelName
                              target_subdir combined_filename
                              default_chunk_size
    else
      recombine_model_in_memory blob_directory layers modelName
                                target_subdir combined_filename.

(** *** [main] *)

(** The builtin [int] on a line of input ([None]: [ValueError]), and the
    three globals that the module sets up before [main] runs. *)
Variable py_int : string -> option Z.
Variable manifest_locations : list string.
Variable blob_dir : string.
Variable outputModels_dir : string.

Definition unknown : Py.json := Py.JStr "Unknown".

(** The body of [for index, manifest_path in enumerate(manifest_locations,
    start=1)]: one line of the list of models. *)
Definition list_model (index : Z) (manifest_path : string) : M unit :=
  let modelName := Path.basename (Path.dirname manifest_path) in
  let manifest_filename := Path.basename manifest_path in
  obj <- json_load manifest_path;;
  config <- lift (Py.get obj "config");;
  if negb (Py.truthy config) then
    print (Listing index modelName manifest_filename unknown None)
  else
    digest <- lift (Py.get config "digest");;
    if negb (Py.truthy digest) then
      print (Listing index modelName manifest_filename unknown None)
    else
      parts <- lift (Py.split_colon digest);;
      sha_value <- lift (Py.index_last parts);;
      let sha_file := Path.join blob_dir ("sha256-" +:+ sha_value) in
      modelQuant <-
        catch
          (config_data <- json_load sha_file;;
           lift (Py.get_default config_data "file_type" unknown))
          (fun _ => ret unknown);;
      layers <- lift (Py.get_default obj "layers" (Py.JArr []));;
      model_size <- get_model_size layers blob_dir;;
      print (Listing index modelName manifest_filename modelQuant
                     (if Z.gtb model_size 0 then Some model_size else None)).

Fixpoint list_models (index : Z) (manifests : list string) : M unit :=
  match manifests with
  | [] => ret tt
  | manifest_path :: rest =>
      list_model index manifest_path;;
      list_models (index + 1) rest
  end.

(** [manifest_locations[choice - 1]] for a [choice] that is at least 1. *)
Definition chosen (choice : Z) : Py.exn + string :=
  match nth_error manifest_locations (Z.to_nat (choice - 1)) with
  | Some manifest_path => inr manifest_path
  | None => inl Py.IndexError
  end.

(** The [try] block of the loop on the line that [input] returned.  The
    result is [false] when the loop is left by [break]. *)
Definition handle_choice (line : string) : M bool :=
  catch
    (choice <- lift (match py_int line with
                     | Some n => inr n
                     | None => inl (Py.ValueError "invalid literal for int()"
                                                  None)
                     end);;
     if Z.eqb choice 0 then print Msg_exiting;; ret false
     else if Z.leb 1 choice
             && Z.leb choice (Z.of_nat (length manifest_locations)) then
       manifest_path <- lift (chosen choice);;
       success <- recombine_model manifest_path blob_dir outputModels_dir;;
       let modelName := Path.basename (Path.dirname manifest_path) in
       (if success then print (Msg_converted modelName)
        else print (Msg_conversion_failed modelName));;
       ret true
     else print Msg_invalid_choice;; ret true)
    (fun excp =>
       if Py.is_ValueError excp then print Msg_invalid_input;; ret true
       else raise excp).

(** The [while True] loop of [main] on the lines that [input] will return;
    at the end of the input, [input] raises [EOFError].  A turn of the loop
    that does not leave it takes one line, so the loop is given one turn
    more than there are lines. *)
Fixpoint main_loop (fuel : nat) (inputs : list string) : M unit :=
  match fuel with
  | O => diverge
  | S fuel' =>
      match manifest_locations with
      | [] => print Msg_no_manifests
      | _ =>
          print Msg_available;;
          list_models 1 manifest_locations;;
          print Prompt;;
          match inputs with
          | [] => raise Py.EOFError
          | line :: rest =>
              again <- handle_choice line;;
              if again then main_loop fuel' rest else ret tt
          end
      end
  end.

Definition main (inputs : list string) : M unit :=
  main_loop (S (length inputs)) inputs.

End Script.

End Engine.

(* ===================================================================== *)
(** ** A JSON decoder and a [str] for the examples *)
(* ===================================================================== *)

(** The theorems hold for any decoder.  The examples run the engine on JSON
    texts, with this decoder for the part of JSON they are written in:
    objects, arrays, strings without escapes, integers, [true], [false],
    [null], blanks between tokens. *)
Module Json.

Definition is_blank (c : ascii) : bool :=
  Ascii.eqb c " "%char || Ascii.eqb c "010"%char
  || Ascii.eqb c "013"%char || Ascii.eqb c "009"%char.

Fixpoint skip_blanks (s : list ascii) : list ascii :=
  match s with
  | c :: rest => if is_blank c then skip_blanks rest else s
  | [] => []
  end.

(** After the opening quote: up to the closing quote. *)
Fixpoint string_body (s : list ascii) : option (string * list ascii) :=
  match s with
  | [] => None
  | c :: rest =>
      if Ascii.eqb c "034"%char then Some (EmptyString, rest)
      else if Ascii.eqb c "\"%char then None
      else match string_body rest with
           | Some (str, rest') => Some (String c str, rest')
           | None => None
           end
  end.

Definition digit_of (c : ascii) : option Z :=
  let n := Z.of_nat (nat_of_ascii c) in
  if Z.leb 48 n && Z.leb n 57 then Some (n - 48) else None.

Fixpoint digits (acc : Z) (s : list ascii) : Z * list ascii :=
  match s with
  | c :: rest =>
      match digit_of c with
      | Some d => digits (10 * acc + d) rest
      | None => (acc, s)
      end
  | [] => (acc, [])
  end.

Definition number (s : list ascii) : option (Z * list ascii) :=
  match s with
  | c :: rest =>
      match digit_of c with
      | Some _ => Some (digits 0 s)
      | None =>
          if Ascii.eqb c "-"%char then
            match rest with
            | d :: _ =>
                match digit_of d with
                | Some _ => let (n, rest') := digits 0 rest in Some (- n, rest')
                | None => None
                end
            | [] => None
            end
          else None
      end
  | [] => None
  end.

Fixpoint literal (word : list ascii) (s : list ascii) : option (list ascii) :=
  match word, s with
  | [], _ => Some s
  | w :: word', c :: rest => if Ascii.eqb w c then literal word' rest else None
  | _ :: _, [] => None
  end.

Section Value.

Variable value : list ascii -> option (Py.json * list ascii).

(** After [[] and a first item: the items that follow, up to []]. *)
Fixpoint more_items (fuel : nat) (s : list ascii)
  : option (list Py.json * list ascii) :=
  match fuel with
  | O => None
  | S fuel' =>
      match skip_blanks s with
      | c :: rest =>
          if Ascii.eqb c "]"%char then Some ([], rest)
          else if Ascii.eqb c ","%char then
            match value rest with
            | Some (v, rest') =>
                match more_items fuel' rest' with
                | Some (vs, rest'') => Some (v :: vs, rest'')
                | None => None
                end
            | None => None
            end
          else None
      | [] => None
      end
  end.

Definition member (s : list ascii) : option ((string * Py.json) * list ascii) :=
  match skip_blanks s with
  | c :: rest =>
      if Ascii.eqb c "034"%char then
        match string_body rest with
        | Some (k, rest') =>
            match skip_blanks rest' with
            | c' :: rest'' =>
                if Ascii.eqb c' ":"%char then
                  match value rest'' with
                  | Some (v, rest3) => Some ((k, v), rest3)
                  | None => None
                  end
                else None
            | [] => None
            end
        | None => None
        end
      else None
  | [] => None
  end.

Fixpoint more_members (fuel : nat) (s : list ascii)
  : option (list (string * Py.json) * list ascii) :=
  match fuel with
  | O => None
  | S fuel' =>
      match skip_blanks s with
      | c :: rest =>
          if Ascii.eqb c "}"%char then Some ([], rest)
          else if Ascii.eqb c ","%char then
            match member rest with
            | Some (kv, rest') =>
                match more_members fuel' rest' with
                | Some (kvs, rest'') => Some (kv :: kvs, rest'')
                | None => None
                end
            | None => None
            end
          else None
      | [] => None
      end
  end.

End Value.

Fixpoint value (fuel : nat) (s : list ascii) : option (Py.json * list ascii) :=
  match fuel with
  | O => None
  | S fuel' =>
      match skip_blanks s with
      | [] => None
      | c :: rest =>
          if Ascii.eqb c "034"%char then
            match string_body rest with
            | Some (str, rest') => Some (Py.JStr str, rest')
            | None => None
            end
          else if Ascii.eqb c "["%char then
            match skip_blanks rest with
            | c' :: rest' =>
                if Ascii.eqb c' "]"%char then Some (Py.JArr [], rest')
                else
                  match value fuel' rest with
                  | Some (v, rest1) =>
                      match more_items (value fuel') fuel' rest1 with
                      | Some (vs, rest2) => Some (Py.JArr (v :: vs), rest2)
                      | None => None
                      end
                  | None => None
                  end
            | [] => None
            end
          else if Ascii.eqb c "{"%char then
            match skip_blanks rest with
            | c' :: rest' =>
                if Ascii.eqb c' "}"%char then Some (Py.JObj [], rest')
                else
                  match member (value fuel') rest with
                  | Some (kv, rest1) =>
                      match more_members (value fuel') fuel' rest1 with
                      | Some (kvs, rest2) => Some (Py.JObj (kv :: kvs), rest2)
                      | None => None
                      end
                  | None => None
                  end
            | [] => None
            end
          else
            match literal (list_ascii_of_string "true") (c :: rest) with
            | Some rest' => Some (Py.JBool true, rest')
            | None =>
            match literal (list_ascii_of_string "false") (c :: rest) with
            | Some rest' => Some (Py.JBool false, rest')
            | None =>
            match literal (list_ascii_of_string "null") (c :: rest) with
            | Some rest' => Some (Py.JNull, rest')
            | None =>
            match number (c :: rest) with
            | Some (n, rest') => Some (Py.JInt n, rest')
            | None => None
            end end end end
      end
  end.

(** [d[k] = v] on the members of a [dict]: a key that is there keeps its
    place and takes the new value. *)
Fixpoint dict_set (k : string) (v : Py.json) (members : list (string * Py.json))
  : list (string * Py.json) :=
  match members with
  | [] => [(k, v)]
  | (k', v') :: rest =>
      if String.eqb k k' then (k', v) :: rest
      else (k', v') :: dict_set k v rest
  end.

Definition dict_of (members : list (string * Py.json))
  : list (string * Py.json) :=
  fold_left (fun d kv => dict_set (fst kv) (snd kv) d) members [].

Fixpoint as_dicts (v : Py.json) : Py.json :=
  match v with
  | Py.JArr items => Py.JArr (map as_dicts items)
  | Py.JObj members =>
      Py.JObj (dict_of (map (fun kv => (fst kv, as_dicts (snd kv))) members))
  | _ => v
  end.

Definition loads (text : list byte) : option Py.json :=
  let s := map ascii_of_byte text in
  match value (S (length s)) s with
  | Some (v, rest) =>
      match skip_blanks rest with
      | [] => Some (as_dicts v)
      | _ => None
      end
  | None => None
  end.

(** Python's [str] on the values the examples pass to it: strings, integers,
    booleans and [None]. *)
Definition str (v : Py.json) : string :=
  match v with
  | Py.JStr s => s
  | Py.JInt n => pretty n
  | Py.JBool true => "True"
  | Py.JBool false => "False"
  | Py.JNull => "None"
  | _ => "?"
  end.

(** Python's [int] on the lines the examples type: decimal digits, with a
    sign or without. *)
Definition int (s : string) : option Z :=
  match number (list_ascii_of_string s) with
  | Some (n, []) => Some n
  | _ => None
  end.

(** The bytes of a text.  The examples write the double quote of JSON as an
    apostrophe. *)
Definition text (s : string) : list byte :=
  map (fun c => byte_of_ascii (if Ascii.eqb c "'"%char then "034"%char else c))
      (list_ascii_of_string s).

End Json.

(* ===================================================================== *)
(** * Vocabulary of the properties *)
(* ===================================================================== *)

Module Spec.
Import World Run Os Engine.

Definition Zsum (l : list Z) : Z := foldr Z.add 0 l.

(** What a path weighs in the estimate. *)
Definition size_or_zero (files : gmap string node) (p : string) : Z :=
  match files !! p with
  | Some n => st_size_of n
  | None => 0
  end.

(** The calls the estimator makes for one path. *)
Definition size_calls (files : gmap string node) (p : string) : list access :=
  match files !! p with
  | Some _ => [Exists p; Getsize p]
  | None => [Exists p]
  end.

(** A layer descriptor the loops can use: it has a [mediaType] and a
    [digest] that names the blob at [p]. *)
Definition layer_is (blob_directory : string) (layer_info : Py.json)
    (d : Py.json * string) : Prop :=
  Py.getitem layer_info "mediaType" = inr (fst d)
  /\ source_blob_of blob_directory layer_info = inr (snd d).

(** What reading the whole blob at [p] gives. *)
Definition blob_content (files : gmap string node) (p : string)
  : Py.exn + list byte :=
  match files !! p with
  | None => inl (Py.FileNotFoundError p)
  | Some (Dir _) => inl (Py.IsADirectoryError p)
  | Some (File data) => inr data
  | Some (Faulty _ _) => inl (Py.OSError p)
  end.

Definition readable (files : gmap string node) (p : string) : bool :=
  match blob_content files p with inr _ => true | inl _ => false end.

(** The contents of the blobs that can be read, in the order of the
    layers. *)
Fixpoint contents (files : gmap string node) (descs : list (Py.json * string))
  : list (list byte) :=
  match descs with
  | [] => []
  | d :: rest =>
      match blob_content files (snd d) with
      | inr data => data :: contents files rest
      | inl _ => contents files rest
      end
  end.

(** What the in-memory loop prints for the layers, the first of which has
    index [i]. *)
Fixpoint read_trace (files : gmap string node) (modelName : string) (i : nat)
    (descs : list (Py.json * string)) : list event :=
  match descs with
  | [] => []
  | (mediaType, p) :: rest =>
      Layer_index i
      :: match files !! p with
         | None =>
             [Status_failed modelName mediaType p (Py.FileNotFoundError p)]
         | Some _ =>
             [Status_reading modelName mediaType p None;
              match blob_content files p with
              | inr data => Status_success modelName mediaType (byte_len data)
              | inl e => Status_failed modelName mediaType p e
              end]
         end
      ++ read_trace files modelName (S i) rest
  end.

(** The calls the in-memory loop makes for one blob. *)
Definition read_calls (files : gmap string node) (p : string) : list access :=
  match files !! p with
  | Some _ => [Exists p; OpenRead p]
  | None => [Exists p]
  end.

(** The per-fragment status an event reports, if it reports one: the media
    type of the layer, and the number of bytes read or [None] for a
    failure. *)
Definition fragment_status (ev : event) : option (Py.json * option Z) :=
  match ev with
  | Status_success _ mediaType bytes => Some (mediaType, Some bytes)
  | Status_failed _ mediaType _ _ => Some (mediaType, None)
  | _ => None
  end.

(** The status a layer must end with. *)
Definition expected_status (files : gmap string node) (d : Py.json * string)
  : Py.json * option Z :=
  (fst d, match blob_content files (snd d) with
          | inr data => Some (byte_len data)
          | inl _ => None
          end).

(** The file system once the output directory [d] is there, if it can be:
    what [if not os.path.exists(d): os.makedirs(d)] leaves. *)
Definition ensure_dir (files : gmap string node) (d : string)
  : Py.exn + gmap string node :=
  match files !! d with
  | Some _ => inr files
  | None => mkdirs (String.length d) d files
  end.

(** Can [open(p, 'wb')] create or truncate the file? *)
Definition creatable (files : gmap string node) (p : string) : Py.exn + unit :=
  match files !! p with
  | Some (Dir _) => inl (Py.IsADirectoryError p)
  | Some (Faulty _ _) => inl (Py.OSError p)
  | Some (File _) => inr tt
  | None => if parent_is_dir files p then inr tt
            else inl (Py.FileNotFoundError p)
  end.

(** The calls that get the output file ready. *)
Definition ensure_calls (files : gmap string node) (d : string) : list access :=
  match files !! d with
  | Some _ => [Exists d]
  | None => [Exists d; Makedirs d]
  end.

(** The blob of a layer is a regular file holding [data], and is not the
    output file. *)
Definition fragment_at (files : gmap string node) (final : string)
    (d : Py.json * string) (data : list byte) : Prop :=
  files !! snd d = Some (File data) /\ snd d <> final.

(** The file at [p] is a regular file whose text decodes to [v]. *)
Definition holds_json (json_loads : list byte -> option Py.json)
    (files : gmap string node) (p : string) (v : Py.json) : Prop :=
  exists text, files !! p = Some (File text) /\ json_loads text = Some v.

(** The three ways a configuration document fails to give a quantization
    type: no [file_type] to read, an empty one, one that is not a string. *)
Inductive bad_file_type (config_data : Py.json) : Prop :=
| file_type_missing e :
    Py.getitem config_data "file_type" = inl e -> bad_file_type config_data
| file_type_empty :
    Py.getitem config_data "file_type" = inr (Py.JStr EmptyString) ->
    bad_file_type config_data
| file_type_not_str v :
    Py.getitem config_data "file_type" = inr v ->
    Py.isinstance_str v = false -> bad_file_type config_data.

Definition invalid_file_type : string :=
  "Invalid or missing `file_type` parameter.".

Definition missing_layers : string :=
  "Layers section is required but missing.".

(** The failures of the metadata that [recombine_model] checks for or runs
    into before it looks at a layer, each with the exception it ends in: a
    manifest or a configuration document that cannot be read or is not JSON,
    no [config], no [digest], a [file_type] that is not a non-empty string,
    no [layers]. *)
Inductive metadata_failure (json_loads : list byte -> option Py.json)
    (files : gmap string node) (manifest_path blob_directory : string)
  : Py.exn -> Prop :=
| manifest_unreadable excp :
    blob_content files manifest_path = inl excp ->
    metadata_failure json_loads files manifest_path blob_directory excp
| manifest_undecodable text :
    blob_content files manifest_path = inr text ->
    json_loads text = None ->
    metadata_failure json_loads files manifest_path blob_directory
                     Py.JSONDecodeError
| config_missing obj config :
    holds_json json_loads files manifest_path obj ->
    Py.get obj "config" = inr config ->
    Py.truthy config = false ->
    metadata_failure json_loads files manifest_path blob_directory
      (Py.ValueError "Config section missing from JSON." None)
| digest_missing obj config digest :
    holds_json json_loads files manifest_path obj ->
    Py.get obj "config" = inr config ->
    Py.truthy config = true ->
    Py.get config "digest" = inr digest ->
    Py.truthy digest = false ->
    metadata_failure json_loads files manifest_path blob_directory
      (Py.ValueError "Digest missing from config section." None)
| configuration_unreadable obj sha_file excp :
    holds_json json_loads files manifest_path obj ->
    sha_file_of blob_directory obj = inr sha_file ->
    blob_content files sha_file = inl excp ->
    metadata_failure json_loads files manifest_path blob_directory excp
| configuration_undecodable obj sha_file text :
    holds_json json_loads files manifest_path obj ->
    sha_file_of blob_directory obj = inr sha_file ->
    blob_content files sha_file = inr text ->
    json_loads text = None ->
    metadata_failure json_loads files manifest_path blob_directory
                     Py.JSONDecodeError
| file_type_invalid obj sha_file config_data cause :
    holds_json json_loads files manifest_path obj ->
    sha_file_of blob_directory obj = inr sha_file ->
    holds_json json_loads files sha_file config_data ->
    bad_file_type config_data ->
    file_type_of config_data
    = inl (Py.ValueError invalid_file_type (Some cause)) ->
    metadata_failure json_loads files manifest_path blob_directory
      (Py.ValueError invalid_file_type (Some cause))
| layers_missing obj sha_file config_data modelQuant layers :
    holds_json json_loads files manifest_path obj ->
    sha_file_of blob_directory obj = inr sha_file ->
    holds_json json_loads files sha_file config_data ->
    file_type_of config_data = inr modelQuant ->
    Py.get obj "layers" = inr layers ->
    Py.truthy layers = false ->
    metadata_failure json_loads files manifest_path blob_directory
      (Py.ValueError missing_layers None).

(** What holds of the result and of the world at the end of the run of [m]
    from [w]. *)
Definition post {A} (m : M A) (w : world) (Q : res A -> world -> Prop)
  : Prop :=
  Q (fst (m w)) (snd (m w)).

(** Every run of [m] ends in a world related to the one it started in. *)
Definition preserves (R : world -> world -> Prop) {A} (m : M A) : Prop :=
  forall w, R w (snd (m w)).

(** The messages that report that a conversion did not go through. *)
Definition reports_failure (ev : event) : bool :=
  match ev with
  | Status_failed _ _ _ _ | Blob_not_found _ _ _
  | Msg_errors_occurred _ | Msg_no_layers _
  | Msg_write_error _ | Msg_chunked_error _ | Msg_removed_incomplete => true
  | _ => false
  end.

(** The last line printed is the success line, and it is made from the path
    of a file that is there and from the size of that file in bytes (the
    line shows the size in MB, with two decimals). *)
Definition created (w : world) : Prop :=
  exists final size n,
    last (out w) = Some (Msg_created final size)
    /\ fs w !! final = Some n /\ st_size_of n = size.

(** The last line printed reports a failure. *)
Definition failed (w : world) : Prop :=
  exists ev, last (out w) = Some ev /\ reports_failure ev = true.

(** What a run that returns has printed last. *)
Definition outcome (r : res bool) (w : world) : Prop :=
  match r with
  | Ok true => created w
  | Ok false => failed w
  | _ => True
  end.

(** The character [sep] does not occur in [s]. *)
Fixpoint lacks (sep : ascii) (s : string) : bool :=
  match s with
  | EmptyString => true
  | String c rest => negb (Ascii.eqb c sep) && lacks sep rest
  end.

(** What [main] prints for a line that it does not take: a line that is
    not a number, or a number that is not one of the list. *)
Definition rejection (choice : option Z) : event :=
  match choice with
  | None => Msg_invalid_input
  | Some _ => Msg_invalid_choice
  end.

(** The quantization that the list of models shows for the configuration
    document at [p]: its [file_type], and "Unknown" when the document has
    none or cannot be loaded. *)
Definition shown_quantization (json_loads : list byte -> option Py.json)
    (files : gmap string node) (p : string) : Py.json :=
  match blob_content files p with
  | inr text =>
      match json_loads text with
      | Some config_data =>
          match Py.get_default config_data "file_type" unknown with
          | inr modelQuant => modelQuant
          | inl _ => unknown
          end
      | None => unknown
      end
  | inl _ => unknown
  end.

(** The file system of [w'] is that of [w]. *)
Definition same_files (w w' : world) : Prop := fs w' = fs w.

(** A relation between the world before and the world after that the steps
    that do not write respect. *)
Class Frame (R : world -> world -> Prop) : Prop := {
  frame_refl : forall w, R w w;
  frame_trans : forall w1 w2 w3, R w1 w2 -> R w2 w3 -> R w1 w3;
  frame_print :
    forall w ev, R w (mkWorld (fs w) (out w ++ [ev]) (io w));
  frame_call :
    forall w a, R w (mkWorld (fs w) (out w) (io w ++ [a]))
}.

(** The calls the chunked strategy makes for a blob that it copies. *)
Definition copy_calls (p : string) : list access :=
  [Exists p; Getsize p; OpenRead p].

(** The calls that open the manifest and the configuration document and
    then measure the blobs at [paths]. *)
Definition metadata_calls (files : gmap string node)
    (manifest_path sha_file : string) (paths : list string) : list access :=
  OpenRead manifest_path :: OpenRead sha_file
  :: flat_map (size_calls files) paths.

End Spec.

(* ===================================================================== *)
(** * A small model store for the examples *)
(* ===================================================================== *)

Module Demo.
Import World Run Os Engine.

Definition manifest_path : string := "/m/library/tiny/latest".
Definition blob_dir : string := "/b".
Definition output_dir : string := "/o".

Definition layer (mediaType digest : string) : Py.json :=
  Py.JObj [("mediaType", Py.JStr mediaType); ("digest", Py.JStr digest)].

Definition layer_a : Py.json := layer "application/x" "sha256:aa".
Definition layer_b : Py.json := layer "application/y" "sha256:bb".

Definition manifest_text : list byte :=
  Json.text ("{'config':{'digest':'sha256:cc'},'layers':["
             +:+ "{'mediaType':'application/x','digest':'sha256:aa'},"
             +:+ "{'mediaType':'application/y','digest':'sha256:bb'}]}").

Definition config_text : list byte :=
  Json.text "{'file_type':'Q4_0','model_type':'llama'}".

Definition blob_a : list byte := [x01; x02; x03].
Definition blob_b : list byte := [x04; x05].

Definition path_a : string := "/b/sha256-aa".
Definition path_b : string := "/b/sha256-bb".
Definition path_c : string := "/b/sha256-cc".
Definition target_subdir : string := "/o/tiny".
Definition final : string := "/o/tiny/tiny-llama-Q4_0.gguf".

(** The manifest, the configuration document and the output directory. *)
Definition metadata : gmap string node :=
  <[manifest_path := File manifest_text]>
    (<[path_c := File config_text]> (<[output_dir := Dir 4096]> ∅)).

(** Both blobs are there. *)
Definition files : gmap string node :=
  <[path_a := File blob_a]> (<[path_b := File blob_b]> metadata).

(** The second blob is missing. *)
Definition files_missing_b : gmap string node :=
  <[path_a := File blob_a]> metadata.

(** The first blob is as long as the threshold (and cannot be read); the
    second is empty: the estimate is the threshold, to the byte. *)
Definition files_at_threshold : gmap string node :=
  <[path_a := Faulty large_file_threshold []]>
    (<[path_b := File []]> metadata).

(** The first blob is one byte longer than the threshold; it gives two bytes
    and then a read error. *)
Definition files_large_faulty : gmap string node :=
  <[path_a := Faulty (large_file_threshold + 1) [x01; x02]]>
    (<[path_b := File blob_b]> metadata).

(** A manifest with no [config]. *)
Definition files_no_config : gmap string node :=
  <[manifest_path := File (Json.text "{'layers':[]}")]> metadata.

(** A configuration document with no [file_type]. *)
Definition files_no_file_type : gmap string node :=
  <[path_c := File (Json.text "{'model_type':'llama'}")]> files.

(** A manifest with an empty list of layers. *)
Definition files_no_layers : gmap string node :=
  <[manifest_path
    := File (Json.text "{'config':{'digest':'sha256:cc'},'layers':[]}")]>
    metadata.

(** The output path is taken by a directory. *)
Definition files_final_is_dir : gmap string node :=
  <[final := Dir 4096]> (<[target_subdir := fresh_dir]> files).


(** The configuration document is not there. *)
Definition files_no_configuration : gmap string node :=
  <[path_a := File blob_a]>
    (<[path_b := File blob_b]>
       (<[manifest_path := File manifest_text]> ∅)).

(** A manifest whose [layers] is [null]. *)
Definition null_layers_text : list byte :=
  Json.text "{'config':{'digest':'sha256:cc'},'layers':null}".

Definition files_null_layers : gmap string node :=
  <[manifest_path := File null_layers_text]> files.

(** A layer with no [digest]. *)
Definition layer_no_digest : Py.json :=
  Py.JObj [("mediaType", Py.JStr "application/z")].

(** A session of [main] with one model in the list. *)
Definition session (files : gmap string node) (inputs : list string)
  : res unit * world :=
  main Json.loads Json.str Json.int [manifest_path] blob_dir output_dir
       inputs (boot files).

Definition choose (files : gmap string node) (line : string)
  : res bool * world :=
  handle_choice Json.loads Json.str Json.int [manifest_path] blob_dir
                output_dir line (boot files).

(** What the documents decode to. *)
Definition items : list Py.json := [layer_a; layer_b].

Definition obj : Py.json :=
  Py.JObj [("config", Py.JObj [("digest", Py.JStr "sha256:cc")]);
           ("layers", Py.JArr items)].

Definition config_data : Py.json :=
  Py.JObj [("file_type", Py.JStr "Q4_0"); ("model_type", Py.JStr "llama")].

Definition descs : list (Py.json * string) :=
  [(Py.JStr "application/x", path_a); (Py.JStr "application/y", path_b)].

Definition paths : list string := [path_a; path_b].

Definition datas : list (list byte) := [blob_a; blob_b].

Definition modelName : string := "tiny".
Definition combined_filename : string := "tiny-llama-Q4_0.gguf".

(** The store once [os.makedirs] has made the directory of the model. *)
Definition with_subdir (files : gmap string node) : gmap string node :=
  <[target_subdir := fresh_dir]> files.

Definition run (files : gmap string node) : res bool * world :=
  recombine_model Json.loads Json.str manifest_path blob_dir output_dir
                  (boot files).

End Demo.

(* ===================================================================== *)
(** * Properties *)
(* ===================================================================== *)

Import Spec.
Import World Run Os Engine.

(** ** Stepping through a computation *)

Lemma bind_ok {A B} (m : M A) (k : A -> M B) w a w' :
  m w = (Ok a, w') -> bind m k w = k a w'.
Proof. unfold bind. intros ->. reflexivity. Qed.

Lemma bind_raise {A B} (m : M A) (k : A -> M B) w e w' :
  m w = (Raise e, w') -> bind m k w = (Raise e, w').
Proof. unfold bind. intros ->. reflexivity. Qed.

Lemma bind_diverge {A B} (m : M A) (k : A -> M B) w w' :
  m w = (Diverge, w') -> bind m k w = (Diverge, w').
Proof. unfold bind. intros ->. reflexivity. Qed.

Lemma bind_ext_l {A B} (m m' : M A) (k : A -> M B) w w' :
  m w = m' w' -> bind m k w = bind m' k w'.
Proof. unfold bind. intros ->. reflexivity. Qed.

Lemma catch_ext_l {A} (m m' : M A) (h : Py.exn -> M A) w w' :
  m w = m' w' -> catch m h w = catch m' h w'.
Proof. unfold catch. intros ->. reflexivity. Qed.

Lemma print_run ev w :
  print ev w = (Ok tt, mkWorld (fs w) (out w ++ [ev]) (io w)).
Proof. reflexivity. Qed.

(** One step of a computation whose first action is known to succeed. *)
Ltac step_by lem :=
  erewrite bind_ok by (eapply lem; cbn [fs]; eassumption);
  cbn beta; cbn [fs out io].
Ltac step := erewrite bind_ok by reflexivity; cbn beta; cbn [fs out io].

Lemma path_exists_run p w :
  path_exists p w
  = (Ok (bool_decide (is_Some (fs w !! p))),
     mkWorld (fs w) (out w) (io w ++ [Exists p])).
Proof. reflexivity. Qed.

Lemma getsize_found p n w :
  fs w !! p = Some n ->
  getsize p w = (Ok (st_size_of n), mkWorld (fs w) (out w) (io w ++ [Getsize p])).
Proof. intros H. unfold getsize, bind, call, lookup_node. simpl. rewrite H. reflexivity. Qed.

(** ** The size estimator *)

Lemma sum_layer_sizes_run blob_directory items paths :
  Forall2 (fun l p => source_blob_of blob_directory l = inr p) items paths ->
  forall total_size w,
    sum_layer_sizes items blob_directory total_size w
    = (Ok (total_size + Zsum (map (size_or_zero (fs w)) paths)),
       mkWorld (fs w) (out w)
               (io w ++ flat_map (size_calls (fs w)) paths)).
Proof.
  induction 1 as [|l p items paths Hl _ IH]; intros total_size w.
  - simpl. rewrite Z.add_0_r, app_nil_r. destruct w; reflexivity.
  - cbn [sum_layer_sizes]. rewrite Hl. cbn [lift].
    unfold bind at 1. cbn [ret].
    unfold bind at 1. rewrite path_exists_run.
    unfold size_or_zero, size_calls. cbn [map Zsum foldr flat_map].
    destruct (fs w !! p) as [n|] eqn:Hp.
    + rewrite bool_decide_eq_true_2 by eauto.
      unfold bind at 1. erewrite getsize_found by (simpl; eauto).
      rewrite IH. cbn [fs out io].
      rewrite <- !app_assoc. cbn [app].
      do 2 f_equal. unfold Zsum, size_or_zero. lia.
    + rewrite bool_decide_eq_false_2 by (intros [? ?]; discriminate).
      rewrite IH. cbn [fs out io]. rewrite <- !app_assoc. reflexivity.
Qed.

Lemma read_all_run p w :
  read_all p w
  = (match blob_content (fs w) p with inr d => Ok d | inl e => Raise e end,
     mkWorld (fs w) (out w) (io w ++ [OpenRead p])).
Proof.
  unfold read_all, blob_content, bind, call, lookup_node. simpl.
  destruct (fs w !! p) as [[]|]; reflexivity.
Qed.

Lemma read_layers_run blob_directory modelName items descs :
  Forall2 (layer_is blob_directory) items descs ->
  forall i layer_contents errors_occurred w,
    read_layers items i blob_directory modelName layer_contents
                errors_occurred w
    = (Ok (layer_contents ++ contents (fs w) descs,
           errors_occurred
           || negb (forallb (readable (fs w)) (map snd descs))),
       mkWorld (fs w)
               (out w ++ read_trace (fs w) modelName i descs)
               (io w ++ flat_map (read_calls (fs w)) (map snd descs))).
Proof.
  induction 1 as [|l [mt p] items descs [Hmt Hp] _ IH];
    intros i lc err w.
  - simpl. rewrite !app_nil_r, orb_false_r. destruct w; reflexivity.
  - cbn [read_layers]. simpl in Hmt, Hp. rewrite Hmt, Hp. cbn [lift].
    unfold bind at 1. cbn [print fs out io].
    unfold bind at 1. cbn [ret].
    unfold bind at 1. cbn [ret].
    unfold bind at 1. unfold catch at 1.
    unfold bind at 1. rewrite path_exists_run. cbn [fs out io].
    cbn [contents read_trace map flat_map forallb snd].
    unfold read_calls at 1, readable at 1.
    unfold blob_content at 1 2 3.
    destruct (fs w !! p) as [n|] eqn:Hn.
    + rewrite bool_decide_eq_true_2 by eauto. cbn [negb].
      unfold bind at 1. cbn [print fs out io].
      unfold bind at 1. rewrite read_all_run. cbn [fs out io].
      unfold blob_content at 1. rewrite Hn.
      destruct n as [sz|data|sz rd]; cbn [print bind ret fs out io fst snd];
        rewrite IH; cbn [fs out io negb andb];
        rewrite <- ?app_assoc; cbn [app];
        rewrite ?orb_true_r, ?orb_false_r; reflexivity.
    + rewrite bool_decide_eq_false_2 by (intros [? ?]; discriminate).
      cbn [negb raise print bind ret fs out io fst snd].
      rewrite IH. cbn [fs out io negb andb].
      rewrite <- ?app_assoc; cbn [app].
      rewrite ?orb_true_r. reflexivity.
Qed.

(** What [if not os.path.exists(d): os.makedirs(d)] does. *)
Lemma ensure_dir_run d w :
  bind (path_exists d) (fun found => when (negb found) (makedirs d)) w
  = match ensure_dir (fs w) d with
    | inr files1 =>
        (Ok tt, mkWorld files1 (out w) (io w ++ ensure_calls (fs w) d))
    | inl e =>
        (Raise e, mkWorld (fs w) (out w) (io w ++ ensure_calls (fs w) d))
    end.
Proof.
  unfold bind at 1. rewrite path_exists_run.
  unfold ensure_dir, ensure_calls.
  destruct (fs w !! d) as [n|] eqn:Hd.
  - rewrite bool_decide_eq_true_2 by eauto. reflexivity.
  - rewrite bool_decide_eq_false_2 by (intros [? ?]; discriminate).
    cbn [negb when]. unfold makedirs, bind, call. cbn [fs out io].
    rewrite Hd. destruct (mkdirs _ _ _); cbn [raise fs out io];
      rewrite <- ?app_assoc; reflexivity.
Qed.

Lemma open_wb_run p w :
  open_wb p w
  = match creatable (fs w) p with
    | inr _ => (Ok tt, mkWorld (<[p := File []]> (fs w)) (out w)
                               (io w ++ [OpenWrite p]))
    | inl e => (Raise e, mkWorld (fs w) (out w) (io w ++ [OpenWrite p]))
    end.
Proof.
  unfold open_wb, creatable, bind, call, lookup_node. cbn [fs out io].
  destruct (fs w !! p) as [[]|]; try reflexivity.
  cbn [fs]. destruct (parent_is_dir (fs w) p); reflexivity.
Qed.

Lemma open_wb_ok p w :
  creatable (fs w) p = inr tt ->
  open_wb p w
  = (Ok tt, mkWorld (<[p := File []]> (fs w)) (out w) (io w ++ [OpenWrite p])).
Proof. intros H. rewrite open_wb_run, H. reflexivity. Qed.

Lemma write_run p chunk w data :
  fs w !! p = Some (File data) ->
  write p chunk w
  = (Ok tt, mkWorld (<[p := File (data ++ chunk)]> (fs w)) (out w) (io w)).
Proof. intros H. unfold write, bind, lookup_node. rewrite H. reflexivity. Qed.

(** The three ways the write of the output file can go. *)
Lemma write_combined_run layer_contents dir name w :
  let final := Path.join dir name in
  let calls := ensure_calls (fs w) dir in
  write_combined layer_contents dir name w
  = match ensure_dir (fs w) dir with
    | inl e =>
        (Ok false, mkWorld (fs w) (out w ++ [Msg_write_error e])
                           (io w ++ calls))
    | inr files1 =>
        match creatable files1 final with
        | inl e =>
            (Ok false, mkWorld files1 (out w ++ [Msg_write_error e])
                               (io w ++ calls ++ [OpenWrite final]))
        | inr _ =>
            (Ok true,
             mkWorld (<[final := File (concat layer_contents)]> files1)
                     (out w ++ [Msg_created final
                                  (byte_len (concat layer_contents))])
                     (io w ++ calls ++ [OpenWrite final]))
        end
    end.
Proof.
  intros final calls. unfold write_combined, catch.
  unfold bind at 1.
  pose proof (ensure_dir_run dir w) as E. unfold bind at 1 in E.
  destruct (path_exists dir w) as [[found| |] w0] eqn:Hex;
    rewrite path_exists_run in Hex; inversion Hex; subst; clear Hex.
  unfold bind at 1. rewrite E. clear E.
  destruct (ensure_dir (fs w) dir) as [e|files1]; [reflexivity|].
  unfold bind at 1. rewrite open_wb_run. cbn [fs out io].
  fold final. destruct (creatable files1 final) as [e|[]].
  - cbn [print bind ret fs out io]. rewrite <- app_assoc. reflexivity.
  - unfold bind at 1.
    erewrite write_run by (cbn [fs]; apply lookup_insert_eq).
    cbn [print bind ret fs out io app].
    rewrite insert_insert_eq, <- app_assoc. reflexivity.
Qed.

(** The in-memory strategy on layer descriptors that the loop can use. *)
Lemma in_memory_run blob_directory modelName dir name items descs w :
  Forall2 (layer_is blob_directory) items descs ->
  let paths := map snd descs in
  let w1 := mkWorld (fs w)
              (out w ++ Msg_standard :: Msg_reading_layers
                        :: read_trace (fs w) modelName 0 descs)
              (io w ++ flat_map (read_calls (fs w)) paths) in
  recombine_model_in_memory blob_directory (Py.JArr items) modelName dir name w
  = if forallb (readable (fs w)) paths then
      match contents (fs w) descs with
      | [] => (Ok false,
               mkWorld (fs w) (out w1 ++ [Msg_no_layers modelName]) (io w1))
      | layer_contents => write_combined layer_contents dir name w1
      end
    else
      (Ok false,
       mkWorld (fs w) (out w1 ++ [Msg_errors_occurred modelName]) (io w1)).
Proof.
  intros H paths w1. unfold recombine_model_in_memory.
  unfold bind at 1. cbn [print fs out io].
  unfold bind at 1. cbn [print fs out io].
  unfold bind at 1. cbn [Py.iter lift ret].
  unfold bind at 1. rewrite (read_layers_run _ _ _ _ H). cbn [fs out io fst snd].
  cbn [orb app]. fold paths.
  rewrite <- !app_assoc. cbn [app]. fold w1.
  destruct (forallb (readable (fs w)) paths); cbn [negb].
  - destruct (contents (fs w) descs); [reflexivity|]. reflexivity.
  - reflexivity.
Qed.

Lemma read_trace_status files modelName descs :
  forall i,
    omap fragment_status (read_trace files modelName i descs)
    = map (expected_status files) descs.
Proof.
  induction descs as [|[mt p] descs IH]; intros i; [reflexivity|].
  cbn [read_trace map]. unfold expected_status at 1. cbn [fst snd].
  unfold blob_content.
  destruct (files !! p) as [[sz|data|sz rd]|];
    simpl; rewrite IH; reflexivity.
Qed.

Lemma contents_nil files descs :
  forallb (readable files) (map snd descs) = true ->
  contents files descs = [] -> descs = [].
Proof.
  destruct descs as [|[mt p] descs]; [reflexivity|].
  cbn [map forallb snd contents]. unfold readable.
  destruct (blob_content files p); [discriminate|]. discriminate.
Qed.

(** C5. Under the in-memory strategy every layer of the list is attempted,
    in the order of the list, whatever happened to the layers before it: the
    status events printed during the run are one per layer, in layer order,
    a success with the number of bytes read for a blob that can be read and a
    failure for one that is missing or cannot be read; and the run first
    makes the calls that look for and open each blob in turn. *)
Theorem in_memory_attempts_every_layer
    blob_directory modelName dir name items descs w :
  Forall2 (layer_is blob_directory) items descs ->
  let r := recombine_model_in_memory blob_directory (Py.JArr items)
                                     modelName dir name w in
  exists evs calls,
    out (snd r) = out w ++ evs
    /\ omap fragment_status evs = map (expected_status (fs w)) descs
    /\ io (snd r)
       = io w ++ flat_map (read_calls (fs w)) (map snd descs) ++ calls.
Proof.
  intros H r. subst r. rewrite (in_memory_run _ _ _ _ _ _ _ H).
  set (head_evs := Msg_standard :: Msg_reading_layers
                   :: read_trace (fs w) modelName 0 descs).
  assert (Hst : forall ev, fragment_status ev = None ->
            omap fragment_status (head_evs ++ [ev])
            = map (expected_status (fs w)) descs).
  { intros ev Hev. unfold head_evs.
    rewrite omap_app. simpl. rewrite read_trace_status, Hev.
    apply app_nil_r. }
  destruct (forallb _ _).
  - destruct (contents (fs w) descs) as [|c cs] eqn:Hc.
    + exists (head_evs ++ [Msg_no_layers modelName]), [].
      cbn [snd fs out io]. rewrite app_nil_r, <- app_assoc.
      split; [reflexivity|]. split; [apply Hst; reflexivity|reflexivity].
    + rewrite write_combined_run. cbn [fs out io].
      destruct (ensure_dir (fs w) dir) as [e|files1];
        [|destruct (creatable files1 (Path.join dir name)) as [e|[]]];
        cbn [snd out io]; rewrite <- !app_assoc;
        eexists (head_evs ++ [_]), _;
        (split; [reflexivity|]); (split; [apply Hst; reflexivity|reflexivity]).
  - exists (head_evs ++ [Msg_errors_occurred modelName]), [].
    cbn [snd fs out io]. rewrite app_nil_r, <- app_assoc.
    split; [reflexivity|]. split; [apply Hst; reflexivity|reflexivity].
Qed.

(** C4. Under the in-memory strategy, when the layer list is empty or some
    blob is missing or cannot be read, the run returns [False] and writes
    nothing: the file system is left as it was, and the only calls made are
    those that look for and read the blobs. *)
Theorem in_memory_failure_writes_nothing
    blob_directory modelName dir name items descs w :
  Forall2 (layer_is blob_directory) items descs ->
  items = [] \/ (exists d, d ∈ descs /\ readable (fs w) (snd d) = false) ->
  let r := recombine_model_in_memory blob_directory (Py.JArr items)
                                     modelName dir name w in
  fst r = Ok false
  /\ fs (snd r) = fs w
  /\ io (snd r) = io w ++ flat_map (read_calls (fs w)) (map snd descs).
Proof.
  intros H Hbad r. subst r. rewrite (in_memory_run _ _ _ _ _ _ _ H).
  destruct (forallb (readable (fs w)) (map snd descs)) eqn:Hall.
  - destruct Hbad as [->|(d & Hd & Hr)].
    + inversion H; subst. cbn. auto.
    + exfalso. rewrite forallb_forall in Hall.
      rewrite (Hall (snd d)) in Hr; [discriminate|].
      apply in_map, list_elem_of_In, Hd.
  - cbn. auto.
Qed.

(** ** The size estimator *)

Lemma get_model_size_run blob_directory items paths w :
  Forall2 (fun l p => source_blob_of blob_directory l = inr p) items paths ->
  get_model_size (Py.JArr items) blob_directory w
  = (Ok (Zsum (map (size_or_zero (fs w)) paths)),
     mkWorld (fs w) (out w) (io w ++ flat_map (size_calls (fs w)) paths)).
Proof.
  intros H. unfold get_model_size. cbn [Py.iter lift].
  unfold bind, ret. rewrite (sum_layer_sizes_run _ _ _ H). reflexivity.
Qed.

(** C8. The estimate is the sum, over the layers, of the size of the blob
    when the path is there and of zero when it is not; a blob that is not
    there does not make the estimate fail; the file system is left as it
    was and nothing is printed. *)
Theorem get_model_size_sums_existing blob_directory items paths w :
  Forall2 (fun l p => source_blob_of blob_directory l = inr p) items paths ->
  let r := get_model_size (Py.JArr items) blob_directory w in
  fst r = Ok (Zsum (map (size_or_zero (fs w)) paths))
  /\ fs (snd r) = fs w
  /\ out (snd r) = out w.
Proof.
  intros H r. subst r. rewrite (get_model_size_run _ _ _ _ H). auto.
Qed.

(** ** Reading in chunks *)

Lemma take_upto_split n l :
  take_upto n l ++ drop (length (take_upto n l)) l = l.
Proof.
  revert n. induction l as [|b l IH]; intros n; [reflexivity|].
  cbn [take_upto]. destruct (Z.leb n 0); [reflexivity|].
  cbn [length drop app]. f_equal. apply IH.
Qed.

Lemma read_bytes_split n l :
  read_bytes n l ++ drop (length (read_bytes n l)) l = l.
Proof.
  unfold read_bytes. destruct (Z.ltb n 0).
  - rewrite drop_all. apply app_nil_r.
  - apply take_upto_split.
Qed.

Lemma read_bytes_nil n l : n <> 0 -> read_bytes n l = [] -> l = [].
Proof.
  unfold read_bytes. intros Hn. destruct (Z.ltb n 0) eqn:Hlt; [auto|].
  destruct l as [|b l]; [reflexivity|]. cbn [take_upto].
  destruct (Z.leb n 0) eqn:Hle; [|discriminate].
  apply Z.ltb_ge in Hlt. apply Z.leb_le in Hle. lia.
Qed.

Lemma read_chunk_file p pos n w data :
  fs w !! p = Some (File data) ->
  read_chunk p pos n w = (Ok (read_bytes n (drop pos data)), w).
Proof. intros H. unfold read_chunk, bind, lookup_node. rewrite H. reflexivity. Qed.

(** The [while True] loop copies what is left of the blob, when the blob is
    not the output file. *)
Lemma copy_chunks_run source final chunk_size data :
  source <> final -> chunk_size <> 0 ->
  forall fuel pos bytes_processed w acc,
    fs w !! source = Some (File data) ->
    fs w !! final = Some (File acc) ->
    (length (drop pos data) < fuel)%nat ->
    exists evs,
      copy_chunks fuel source final chunk_size (byte_len data)
                  pos bytes_processed w
      = (Ok tt, mkWorld (<[final := File (acc ++ drop pos data)]> (fs w))
                        (out w ++ evs) (io w)).
Proof.
  intros Hne Hcs. induction fuel as [|fuel IH];
    intros pos bp w acc Hsrc Hfin Hfuel; [lia|].
  cbn [copy_chunks]. unfold bind at 1.
  rewrite (read_chunk_file _ _ _ _ _ Hsrc).
  pose proof (read_bytes_split chunk_size (drop pos data)) as Hsplit.
  destruct (read_bytes chunk_size (drop pos data)) as [|b chunk] eqn:Hchunk.
  - apply read_bytes_nil in Hchunk; [|assumption]. rewrite Hchunk.
    exists []. rewrite !app_nil_r, insert_id by assumption.
    destruct w; reflexivity.
  - unfold bind at 1. rewrite (write_run _ _ _ _ Hfin).
    assert (Hsz : Z.eqb (byte_len data) 0 = false).
    { apply Z.eqb_neq. unfold byte_len. intros Hz.
      assert (length data = 0%nat) as Hlen by lia.
      apply nil_length_inv in Hlen. subst data.
      rewrite drop_nil in Hsplit. discriminate. }
    rewrite Hsz. unfold bind at 1. cbn [print fs out io].
    set (w1 := mkWorld _ _ _).
    destruct (IH (pos + length (b :: chunk))%nat
                 (bp + byte_len (b :: chunk)) w1 (acc ++ b :: chunk))
      as [evs Hrun].
    + subst w1. cbn [fs]. rewrite lookup_insert_ne by auto. assumption.
    + subst w1. cbn [fs]. apply lookup_insert_eq.
    + rewrite <- drop_drop. rewrite <- Hsplit in Hfuel at 1.
      rewrite length_app in Hfuel. cbn [length] in *. lia.
    + rewrite Hrun. subst w1. cbn [fs out io].
      exists (Progress (bp + byte_len (b :: chunk)) (byte_len data) :: evs).
      rewrite insert_insert_eq, <- !app_assoc. cbn [app].
      rewrite <- drop_drop.
      replace (b :: chunk ++ drop (length (b :: chunk)) (drop pos data))
        with (drop pos data) by (symmetry; exact Hsplit).
      reflexivity.
Qed.

Lemma open_rb_file p w data :
  fs w !! p = Some (File data) ->
  open_rb p w = (Ok tt, mkWorld (fs w) (out w) (io w ++ [OpenRead p])).
Proof.
  intros H. unfold open_rb, bind, call, lookup_node. cbn [fs out io].
  rewrite H. reflexivity.
Qed.

Lemma reads_bound_file p w data :
  fs w !! p = Some (File data) -> reads_bound p w = (Ok (S (length data)), w).
Proof. intros H. unfold reads_bound, bind, lookup_node. rewrite H. reflexivity. Qed.

(** The start of the body of the loop of the chunked strategy, for a blob
    that is a regular file: up to the [while True] loop. *)
Lemma copy_layers_file blob_directory modelName final chunk_size
    l mt p rest i w data :
  layer_is blob_directory l (mt, p) ->
  fs w !! p = Some (File data) ->
  copy_layers (l :: rest) i blob_directory modelName final chunk_size w
  = (processed <-
       catch
         (copy_chunks (S (length data)) p final chunk_size (byte_len data) 0 0;;
          print Newline;;
          print (Status_success modelName mt (byte_len data));;
          ret true)
         (fun excp => print (Status_failed modelName mt p excp);; ret false);;
     if processed then
       copy_layers rest (S i) blob_directory modelName final chunk_size
     else ret false)
      (mkWorld (fs w)
         (out w ++ [Layer_index i;
                    Status_reading modelName mt p (Some (byte_len data))])
         (io w ++ [Exists p; Getsize p; OpenRead p])).
Proof.
  intros [Hmt Hp] Hfile. cbn [fst snd] in Hmt, Hp.
  cbn [copy_layers]. rewrite Hmt, Hp. cbn [lift].
  step. step. step.
  erewrite bind_ok by apply path_exists_run. cbn beta. cbn [fs out io].
  rewrite bool_decide_eq_true_2 by eauto. cbn [negb].
  apply bind_ext_l, catch_ext_l.
  step_by getsize_found. cbn [st_size_of]. fold (byte_len data).
  step. step_by open_rb_file. step_by reads_bound_file.
  rewrite <- !app_assoc. reflexivity.
Qed.

(** C10. A blob that is there and empty: the first [read] returns no bytes,
    so the loop ends before anything is written and before the percentage
    is computed.  The strategy prints the index, the start and the success of
    the layer, with no [Progress] event in between and no failure, leaves
    the file system as it was, and goes on with the next layer.  This holds
    for every chunk size and every output path. *)
Theorem chunked_empty_blob blob_directory modelName final chunk_size
    l mt p rest i w :
  layer_is blob_directory l (mt, p) ->
  fs w !! p = Some (File []) ->
  copy_layers (l :: rest) i blob_directory modelName final chunk_size w
  = copy_layers rest (S i) blob_directory modelName final chunk_size
      (mkWorld (fs w)
         (out w ++ [Layer_index i; Status_reading modelName mt p (Some 0);
                    Newline; Status_success modelName mt 0])
         (io w ++ [Exists p; Getsize p; OpenRead p])).
Proof.
  intros Hl Hfile.
  rewrite (copy_layers_file _ _ _ _ _ _ _ _ _ _ _ Hl Hfile).
  unfold bind at 1. unfold catch at 1. unfold bind at 1.
  cbn [length copy_chunks]. unfold bind at 1.
  erewrite read_chunk_file by (cbn [fs]; eassumption).
  cbn [drop read_bytes]. replace (read_bytes chunk_size []) with (@nil byte)
    by (unfold read_bytes; destruct (Z.ltb chunk_size 0); reflexivity).
  cbn [ret print bind fs out io]. rewrite <- !app_assoc. reflexivity.
Qed.

(** A blob that is a regular file and not the output file is appended to
    the output file, whole. *)
Lemma copy_layers_step blob_directory modelName final chunk_size
    l mt p rest i w data acc :
  layer_is blob_directory l (mt, p) ->
  p <> final -> chunk_size <> 0 ->
  fs w !! p = Some (File data) ->
  fs w !! final = Some (File acc) ->
  exists evs,
    copy_layers (l :: rest) i blob_directory modelName final chunk_size w
    = copy_layers rest (S i) blob_directory modelName final chunk_size
        (mkWorld (<[final := File (acc ++ data)]> (fs w))
                 (out w ++ evs)
                 (io w ++ [Exists p; Getsize p; OpenRead p])).
Proof.
  intros Hl Hne Hcs Hfile Hfin.
  rewrite (copy_layers_file _ _ _ _ _ _ _ _ _ _ _ Hl Hfile).
  unfold bind at 1. unfold catch at 1. unfold bind at 1.
  set (w1 := mkWorld _ _ _).
  destruct (copy_chunks_run p final chunk_size data Hne Hcs
              (S (length data)) 0%nat 0 w1 acc) as [evs Hrun];
    [exact Hfile | exact Hfin | rewrite drop_0; lia |].
  rewrite Hrun. subst w1. rewrite drop_0. cbn [print bind ret fs out io].
  eexists. rewrite <- !app_assoc. reflexivity.
Qed.

Lemma copy_layers_all blob_directory modelName final chunk_size :
  chunk_size <> 0 ->
  forall items descs datas,
    Forall2 (layer_is blob_directory) items descs ->
    forall i w acc,
      Forall2 (fragment_at (fs w) final) descs datas ->
      fs w !! final = Some (File acc) ->
      exists evs calls,
        copy_layers items i blob_directory modelName final chunk_size w
        = (Ok true,
           mkWorld (<[final := File (acc ++ concat datas)]> (fs w))
                   (out w ++ evs) (io w ++ calls)).
Proof.
  intros Hcs items descs datas Hl. revert datas.
  induction Hl as [|l [mt p] items descs Hl _ IH];
    intros datas i w acc Hfr Hfin.
  - inversion Hfr; subst. exists [], []. cbn [copy_layers concat ret].
    rewrite !app_nil_r, insert_id by assumption. destruct w; reflexivity.
  - inversion Hfr as [|? data ? datas' [Hfile Hne] Hfr']; subst.
    cbn [snd] in Hfile, Hne.
    destruct (copy_layers_step blob_directory modelName final chunk_size
                l mt p items i w data acc Hl Hne Hcs Hfile Hfin)
      as [evs Hstep].
    rewrite Hstep. set (w1 := mkWorld _ _ _).
    destruct (IH datas' (S i) w1 (acc ++ data)) as (evs' & calls' & Hrun).
    + subst w1. cbn [fs]. eapply Forall2_impl; [exact Hfr'|].
      intros d x [Hd Hd']. split; [|exact Hd'].
      rewrite lookup_insert_ne by auto. exact Hd.
    + subst w1. cbn [fs]. apply lookup_insert_eq.
    + rewrite Hrun. subst w1. cbn [fs out io concat].
      exists (evs ++ evs'), ([Exists p; Getsize p; OpenRead p] ++ calls').
      rewrite insert_insert_eq, <- !app_assoc. reflexivity.
Qed.

Lemma fragments_readable files final descs datas :
  Forall2 (fragment_at files final) descs datas ->
  forallb (readable files) (map snd descs) = true
  /\ contents files descs = datas.
Proof.
  induction 1 as [|d data descs datas [Hfile _] _ [IH1 IH2]];
    [split; reflexivity|].
  cbn [map forallb contents]. unfold readable at 1, blob_content.
  rewrite Hfile. cbn [andb]. rewrite IH1, IH2. split; reflexivity.
Qed.

(** [os.makedirs] leaves what is there as it is. *)
Lemma mkdirs_lookup fuel :
  forall p files files' q n,
    mkdirs fuel p files = inr files' ->
    files !! q = Some n -> files' !! q = Some n.
Proof.
  induction fuel as [|fuel IH]; intros p files files' q n Hmk Hq;
    cbn [mkdirs] in Hmk;
    destruct (files !! p) as [[]|] eqn:Hp; try discriminate;
    try (inversion Hmk; subst; assumption).
  - destruct (_ || _); [|discriminate].
    inversion Hmk; subst. rewrite lookup_insert_ne; [assumption|].
    intros ->. rewrite Hp in Hq. discriminate.
  - destruct (_ || _).
    + inversion Hmk; subst. rewrite lookup_insert_ne; [assumption|].
      intros ->. rewrite Hp in Hq. discriminate.
    + destruct (mkdirs fuel (Path.dirname p) files) as [e|files''] eqn:Hrec;
        [discriminate|].
      inversion Hmk; subst. rewrite lookup_insert_ne.
      * eapply IH; eassumption.
      * intros ->. rewrite Hp in Hq. discriminate.
Qed.

Lemma ensure_dir_lookup files d files1 q n :
  ensure_dir files d = inr files1 ->
  files !! q = Some n -> files1 !! q = Some n.
Proof.
  unfold ensure_dir. destruct (files !! d).
  - intros H; inversion H; subst. auto.
  - apply mkdirs_lookup.
Qed.

Lemma byte_len_concat datas :
  byte_len (concat datas) = Zsum (map byte_len datas).
Proof.
  unfold byte_len, Zsum. induction datas as [|d datas IH]; [reflexivity|].
  cbn [concat map foldr]. rewrite length_app, Nat2Z.inj_add, IH. reflexivity.
Qed.

(** The chunked strategy when every blob is a regular file other than the
    output file and the output file can be made. *)
Lemma chunked_run blob_directory modelName dir name chunk_size
    items descs datas w files1 :
  let final := Path.join dir name in
  Forall2 (layer_is blob_directory) items descs ->
  Forall2 (fragment_at (fs w) final) descs datas ->
  chunk_size <> 0 ->
  ensure_dir (fs w) dir = inr files1 ->
  creatable files1 final = inr tt ->
  exists evs calls,
    recombine_model_chunked blob_directory (Py.JArr items) modelName
                            dir name chunk_size w
    = (Ok true,
       mkWorld (<[final := File (concat datas)]> files1)
               (out w ++ evs
                ++ [Msg_created final (byte_len (concat datas))])
               (io w ++ calls)).
Proof.
  intros final Hl Hfr Hcs Hdir Hcr. unfold recombine_model_chunked.
  step. unfold bind at 1.
  pose proof (ensure_dir_run dir (mkWorld (fs w) (out w ++ [Msg_chunks chunk_size]) (io w))) as E.
  unfold bind at 1 in E. cbn [fs out io] in E. rewrite Hdir in E.
  destruct (path_exists dir _) as [[found| |] w0] eqn:Hex;
    rewrite path_exists_run in Hex; inversion Hex; subst; clear Hex.
  unfold bind at 1. cbn [fs out io]. rewrite E. clear E.
  fold final. unfold catch.
  erewrite bind_ok by (apply open_wb_ok; exact Hcr). cbn [fs out io].
  cbn [Py.iter lift]. step.
  set (w2 := mkWorld _ _ _).
  destruct (copy_layers_all blob_directory modelName final chunk_size Hcs
              items descs datas Hl 0%nat w2 [])
    as (evs & calls & Hrun).
  { subst w2. cbn [fs]. eapply Forall2_impl; [exact Hfr|].
    intros d x [Hd Hd']. split; [|exact Hd'].
    rewrite lookup_insert_ne by auto.
    eapply ensure_dir_lookup; eassumption. }
  { subst w2. cbn [fs]. apply lookup_insert_eq. }
  erewrite bind_ok by exact Hrun. cbn beta iota. subst w2. cbn [fs out io app].
  rewrite insert_insert_eq.
  erewrite bind_ok by (eapply getsize_found; cbn [fs]; apply lookup_insert_eq).
  cbn [st_size_of fs out io]. fold (byte_len (concat datas)).
  cbn [print bind ret fs out io].
  exists (Msg_chunks chunk_size :: evs),
    (ensure_calls (fs w) dir ++ OpenWrite final :: calls ++ [Getsize final]).
  rewrite <- !app_assoc. reflexivity.
Qed.

(** C3. When every layer's blob is a regular file, the two strategies
    succeed and leave the same file system, in which the output file holds
    the blobs one after the other in the order of the layers; its length is
    the sum of the lengths of the blobs.  The blobs are inputs: none of them
    is the output file itself; and the output file can be made. *)
Theorem strategies_agree blob_directory modelName dir name chunk_size
    items descs datas w files1 :
  let final := Path.join dir name in
  Forall2 (layer_is blob_directory) items descs ->
  Forall2 (fragment_at (fs w) final) descs datas ->
  items <> [] ->
  chunk_size <> 0 ->
  ensure_dir (fs w) dir = inr files1 ->
  creatable files1 final = inr tt ->
  let a := recombine_model_in_memory blob_directory (Py.JArr items)
                                     modelName dir name w in
  let b := recombine_model_chunked blob_directory (Py.JArr items)
                                   modelName dir name chunk_size w in
  fst a = Ok true
  /\ fst b = Ok true
  /\ fs (snd a) = <[final := File (concat datas)]> files1
  /\ fs (snd b) = fs (snd a)
  /\ byte_len (concat datas) = Zsum (map byte_len datas).
Proof.
  intros final Hl Hfr Hne Hcs Hdir Hcr a b.
  destruct (chunked_run blob_directory modelName dir name chunk_size
              items descs datas w files1 Hl Hfr Hcs Hdir Hcr)
    as (evs & calls & Hb).
  assert (Ha : fst a = Ok true
               /\ fs (snd a) = <[final := File (concat datas)]> files1).
  { subst a. rewrite (in_memory_run _ _ _ _ _ _ _ Hl).
    destruct (fragments_readable _ _ _ _ Hfr) as [Hall Hc].
    rewrite Hall, Hc.
    destruct datas as [|data datas].
    - inversion Hfr; subst. inversion Hl; subst. contradiction.
    - rewrite write_combined_run. cbn [fs out io]. rewrite Hdir.
      fold final. rewrite Hcr. split; reflexivity. }
  destruct Ha as [Ha1 Ha2]. subst b. rewrite Hb, Ha1, Ha2. cbn [fst snd fs].
  repeat split. apply byte_len_concat.
Qed.

(** ** Metadata *)

Section Metadata.

Variable json_loads : list byte -> option Py.json.
Variable py_str : Py.json -> string.

Lemma json_load_run p v w :
  holds_json json_loads (fs w) p v ->
  json_load json_loads p w
  = (Ok v, mkWorld (fs w) (out w) (io w ++ [OpenRead p])).
Proof.
  intros (text & Hp & Hv). unfold json_load.
  unfold bind. rewrite read_all_run. unfold blob_content.
  rewrite Hp, Hv. reflexivity.
Qed.

Lemma bad_file_type_raises config_data :
  bad_file_type config_data ->
  exists cause,
    file_type_of config_data
    = inl (Py.ValueError invalid_file_type (Some cause)).
Proof.
  unfold file_type_of, invalid_file_type.
  intros [e He|He|v He Hv]; rewrite He; cbn [Py.and_then Py.reraise].
  - eauto.
  - cbn. eauto.
  - destruct v; try discriminate; cbn [Py.len Py.and_then Py.reraise]; eauto;
      match goal with |- context [Py.assert ?b _] => destruct b end;
      cbn [Py.assert Py.and_then Py.reraise]; eauto.
Qed.

(** A configuration document with a quantization type has a model type. *)
Lemma model_type_total config_data q :
  file_type_of config_data = inr q ->
  exists t, model_type_of py_str config_data = inr t.
Proof.
  unfold file_type_of, model_type_of, Py.getitem.
  destruct config_data; try discriminate.
  intros _. destruct (Py.assoc "model_type" members); eauto.
Qed.

(** C6. When the configuration document has no [file_type], an empty one
    or one that is not a string, the run raises the same [ValueError] in
    the three cases; nothing is written and nothing is printed, and the only
    files opened are the manifest and the configuration document. *)
Theorem invalid_file_type_raises
    manifest_path blob_directory output_directory files obj sha_file
    config_data :
  holds_json json_loads files manifest_path obj ->
  sha_file_of blob_directory obj = inr sha_file ->
  holds_json json_loads files sha_file config_data ->
  bad_file_type config_data ->
  let r := recombine_model json_loads py_str manifest_path blob_directory
                           output_directory (boot files) in
  (exists cause,
      fst r = Raise (Py.ValueError invalid_file_type (Some cause)))
  /\ fs (snd r) = files
  /\ out (snd r) = []
  /\ io (snd r) = [OpenRead manifest_path; OpenRead sha_file].
Proof.
  intros Hobj Hsha Hcd Hbad r. subst r. unfold recombine_model.
  erewrite bind_ok by (apply json_load_run; exact Hobj). cbn [boot fs out io].
  rewrite Hsha. cbn [lift]. step.
  erewrite bind_ok by (apply json_load_run; exact Hcd). cbn [fs out io].
  destruct (bad_file_type_raises _ Hbad) as [cause Hft]. rewrite Hft.
  cbn. eauto 6.
Qed.

(** C7. When the manifest has no [layers], or an empty list (or anything
    else that Python takes for false), and the configuration document is in
    order, the run raises the [ValueError] for the missing layers; nothing is
    written and nothing is printed, and the only files opened are the
    manifest and the configuration document: no blob of a layer is looked
    for, measured or read. *)
Theorem missing_layers_raises
    manifest_path blob_directory output_directory files obj sha_file
    config_data modelQuant layers :
  holds_json json_loads files manifest_path obj ->
  sha_file_of blob_directory obj = inr sha_file ->
  holds_json json_loads files sha_file config_data ->
  file_type_of config_data = inr modelQuant ->
  Py.get obj "layers" = inr layers ->
  Py.truthy layers = false ->
  let r := recombine_model json_loads py_str manifest_path blob_directory
                           output_directory (boot files) in
  fst r = Raise (Py.ValueError missing_layers None)
  /\ fs (snd r) = files
  /\ out (snd r) = []
  /\ io (snd r) = [OpenRead manifest_path; OpenRead sha_file].
Proof.
  intros Hobj Hsha Hcd Hft Hlayers Hfalse r. subst r.
  unfold recombine_model.
  erewrite bind_ok by (apply json_load_run; exact Hobj). cbn [boot fs out io].
  rewrite Hsha. cbn [lift]. step.
  erewrite bind_ok by (apply json_load_run; exact Hcd). cbn [fs out io].
  rewrite Hft. cbn [lift]. step.
  destruct (model_type_total _ _ Hft) as [t Ht]. rewrite Ht. cbn [lift]. step.
  rewrite Hlayers. cbn [lift]. step. rewrite Hfalse. cbn. auto.
Qed.

End Metadata.

(** ** The choice of the strategy *)

Section Dispatch.

Variable json_loads : list byte -> option Py.json.
Variable py_str : Py.json -> string.

(** The run up to the choice of the strategy, for metadata that is in
    order: the two documents are opened, the blobs are measured, and the run
    goes on with one of the two strategies. *)
Lemma recombine_model_dispatch
    manifest_path blob_directory output_directory w obj sha_file
    config_data modelQuant trained_on items paths :
  holds_json json_loads (fs w) manifest_path obj ->
  sha_file_of blob_directory obj = inr sha_file ->
  holds_json json_loads (fs w) sha_file config_data ->
  file_type_of config_data = inr modelQuant ->
  model_type_of py_str config_data = inr trained_on ->
  Py.get obj "layers" = inr (Py.JArr items) ->
  items <> [] ->
  Forall2 (fun l p => source_blob_of blob_directory l = inr p) items paths ->
  let modelName := Path.basename (Path.dirname manifest_path) in
  let target_subdir := Path.join output_directory modelName in
  let combined_filename :=
    modelName +:+ "-" +:+ trained_on +:+ "-" +:+ modelQuant +:+ ".gguf" in
  let total_size := Zsum (map (size_or_zero (fs w)) paths) in
  let w1 := mkWorld (fs w) (out w)
              (io w ++ metadata_calls (fs w) manifest_path sha_file paths) in
  recombine_model json_loads py_str manifest_path blob_directory
                  output_directory w
  = if use_chunked total_size then
      (print (Msg_large_model total_size);;
       recombine_model_chunked blob_directory (Py.JArr items) modelName
                               target_subdir combined_filename
                               default_chunk_size) w1
    else
      recombine_model_in_memory blob_directory (Py.JArr items) modelName
                                target_subdir combined_filename w1.
Proof.
  intros Hobj Hsha Hcd Hft Hmt Hlayers Hne Hpaths
         modelName target_subdir combined_filename total_size w1.
  unfold recombine_model.
  erewrite bind_ok by (apply json_load_run; exact Hobj). cbn [fs out io].
  rewrite Hsha. cbn [lift]. step.
  erewrite bind_ok by (apply json_load_run; cbn [fs]; exact Hcd).
  cbn [fs out io].
  rewrite Hft. cbn [lift]. step.
  rewrite Hmt. cbn [lift]. step.
  rewrite Hlayers. cbn [lift]. step.
  destruct items as [|l items]; [contradiction|]. cbn [Py.truthy negb].
  erewrite bind_ok by (apply get_model_size_run; exact Hpaths).
  cbn [fs out io]. fold total_size.
  unfold w1, metadata_calls. rewrite <- !app_assoc.
  destruct (use_chunked total_size); reflexivity.
Qed.

(** C2. The strategy is chosen by [total_size > large_file_threshold], with
    the threshold at 1 GiB: an estimate above the threshold goes to the
    chunked strategy, an estimate equal to the threshold or below it goes to
    the in-memory strategy. *)
Theorem strategy_is_strictly_above_threshold
    manifest_path blob_directory output_directory w obj sha_file
    config_data modelQuant trained_on items paths :
  holds_json json_loads (fs w) manifest_path obj ->
  sha_file_of blob_directory obj = inr sha_file ->
  holds_json json_loads (fs w) sha_file config_data ->
  file_type_of config_data = inr modelQuant ->
  model_type_of py_str config_data = inr trained_on ->
  Py.get obj "layers" = inr (Py.JArr items) ->
  items <> [] ->
  Forall2 (fun l p => source_blob_of blob_directory l = inr p) items paths ->
  let modelName := Path.basename (Path.dirname manifest_path) in
  let target_subdir := Path.join output_directory modelName in
  let combined_filename :=
    modelName +:+ "-" +:+ trained_on +:+ "-" +:+ modelQuant +:+ ".gguf" in
  let total_size := Zsum (map (size_or_zero (fs w)) paths) in
  let w1 := mkWorld (fs w) (out w)
              (io w ++ metadata_calls (fs w) manifest_path sha_file paths) in
  let r := recombine_model json_loads py_str manifest_path blob_directory
                           output_directory w in
  large_file_threshold = 1073741824
  /\ (large_file_threshold < total_size ->
      r = (print (Msg_large_model total_size);;
           recombine_model_chunked blob_directory (Py.JArr items) modelName
                                   target_subdir combined_filename
                                   default_chunk_size) w1)
  /\ (total_size <= large_file_threshold ->
      r = recombine_model_in_memory blob_directory (Py.JArr items) modelName
                                    target_subdir combined_filename w1).
Proof.
  intros Hobj Hsha Hcd Hft Hmt Hlayers Hne Hpaths
         modelName target_subdir combined_filename total_size w1 r.
  subst r.
  rewrite (recombine_model_dispatch _ _ _ _ _ _ _ _ _ _ _
             Hobj Hsha Hcd Hft Hmt Hlayers Hne Hpaths).
  fold modelName target_subdir combined_filename total_size w1.
  split; [reflexivity|]. unfold use_chunked. split; intros H.
  - replace (Z.gtb total_size large_file_threshold) with true; [reflexivity|].
    symmetry. rewrite Z.gtb_ltb. apply Z.ltb_lt. exact H.
  - replace (Z.gtb total_size large_file_threshold) with false; [reflexivity|].
    symmetry. rewrite Z.gtb_ltb. apply Z.ltb_ge. exact H.
Qed.

End Dispatch.

(** ** What a run has printed when it returns *)

Lemma post_bind {A B} (m : M A) (k : A -> M B) w Q :
  post m w (fun r w1 =>
              match r with
              | Ok a => post (k a) w1 Q
              | Raise e => Q (Raise e) w1
              | Diverge => Q Diverge w1
              end) ->
  post (bind m k) w Q.
Proof. unfold post, bind. destruct (m w) as [[a|e|] w1]; auto. Qed.

Lemma post_catch {A} (m : M A) (h : Py.exn -> M A) w Q :
  post m w (fun r w1 =>
              match r with
              | Raise e => post (h e) w1 Q
              | r' => Q r' w1
              end) ->
  post (catch m h) w Q.
Proof. unfold post, catch. destruct (m w) as [[a|e|] w1]; auto. Qed.

Lemma post_any {A} (m : M A) w (Q : res A -> world -> Prop) :
  (forall r w1, Q r w1) -> post m w Q.
Proof. unfold post. auto. Qed.

Lemma post_weaken {A} (m : M A) w (Q Q' : res A -> world -> Prop) :
  (forall r w1, Q r w1 -> Q' r w1) -> post m w Q -> post m w Q'.
Proof. unfold post. auto. Qed.

Lemma failed_snoc files evs ev calls :
  reports_failure ev = true -> failed (mkWorld files (evs ++ [ev]) calls).
Proof. intros H. exists ev. cbn [out]. rewrite last_snoc. auto. Qed.

(** A step whose result does not matter for what is printed last. *)
Ltac post_skip :=
  apply post_bind, post_any;
  let r := fresh "r" in let w1 := fresh "w" in
  intros r w1; destruct r as [?| |]; [|exact I|exact I].

(** The [except] clause of the chunked strategy ends with a report. *)
Lemma chunked_handler_post final excp w :
  post (print (Msg_chunked_error excp);;
        found <- path_exists final;;
        when found
          (catch (remove final;; print Msg_removed_incomplete)
                 (fun _ => ret tt));;
        ret false) w outcome.
Proof.
  unfold post. step. erewrite bind_ok by apply path_exists_run.
  cbn [fs out io].
  destruct (fs w !! final) as [n|] eqn:Hn.
  - rewrite bool_decide_eq_true_2 by eauto. cbn [when].
    unfold remove, catch, bind, call, lookup_node, unlink, print, ret.
    cbn [fs out io]. rewrite Hn.
    destruct n; cbn [fst snd outcome raise fs out io].
    + apply failed_snoc. reflexivity.
    + rewrite <- app_assoc. cbn [app].
      change [Msg_chunked_error excp; Msg_removed_incomplete]
        with ([Msg_chunked_error excp] ++ [Msg_removed_incomplete]).
      rewrite app_assoc. apply failed_snoc. reflexivity.
    + rewrite <- app_assoc. cbn [app].
      change [Msg_chunked_error excp; Msg_removed_incomplete]
        with ([Msg_chunked_error excp] ++ [Msg_removed_incomplete]).
      rewrite app_assoc. apply failed_snoc. reflexivity.
  - rewrite bool_decide_eq_false_2 by (intros [? ?]; discriminate).
    cbn [when ret bind fst snd outcome]. apply failed_snoc. reflexivity.
Qed.

(** The loop of the chunked strategy is left by [return False] only after a
    report on the layer at fault. *)
Lemma copy_layers_post blob_directory modelName final chunk_size items :
  forall i w,
    post (copy_layers items i blob_directory modelName final chunk_size) w
         (fun r w1 => r = Ok false -> failed w1).
Proof.
  induction items as [|l items IH]; intros i w; cbn [copy_layers].
  - unfold post. cbn. discriminate.
  - apply post_bind. unfold post at 1. cbn [print fst snd].
    destruct (Py.getitem l "mediaType") as [e|mediaType]; cbn [lift];
      [unfold post; cbn; discriminate|].
    apply post_bind. unfold post at 1. cbn [ret fst snd].
    destruct (source_blob_of blob_directory l) as [e|source_blob];
      cbn [lift]; [unfold post; cbn; discriminate|].
    apply post_bind. unfold post at 1. cbn [ret fst snd].
    apply post_bind. unfold post at 1. rewrite path_exists_run.
    cbn [fst snd].
    destruct (bool_decide _); cbn [negb].
    + apply post_bind, post_catch.
      assert (Hh : forall excp w1,
                 post (print (Status_failed modelName mediaType source_blob
                                            excp);; ret false) w1
                   (fun r w2 =>
                      match r with
                      | Ok a =>
                          post (if a
                                then copy_layers items (S i) blob_directory
                                       modelName final chunk_size
                                else ret false) w2
                               (fun r0 w3 => r0 = Ok false -> failed w3)
                      | Raise e => Raise e = Ok false -> failed w2
                      | Diverge => Diverge = Ok false -> failed w2
                      end)).
      { intros excp w1. unfold post. cbn. intros _.
        apply failed_snoc. reflexivity. }
      apply post_bind, post_any. intros [file_size|e|] w1;
        [|apply Hh|discriminate].
      apply post_bind, post_any. intros [[]|e|] w2;
        [|apply Hh|discriminate].
      apply post_bind, post_any. intros [[]|e|] w3;
        [|apply Hh|discriminate].
      apply post_bind, post_any. intros [fuel|e|] w4;
        [|apply Hh|discriminate].
      apply post_bind, post_any. intros [[]|e|] w5;
        [|apply Hh|discriminate].
      apply post_bind, post_any. intros [[]|e|] w6;
        [|apply Hh|discriminate].
      apply post_bind, post_any. intros [[]|e|] w7;
        [|apply Hh|discriminate].
      unfold post at 1. cbn [ret fst snd]. apply IH.
    + unfold post. cbn. intros _. apply failed_snoc. reflexivity.
Qed.

Lemma chunked_post blob_directory layers modelName target_subdir
    combined_filename chunk_size w :
  post (recombine_model_chunked blob_directory layers modelName
          target_subdir combined_filename chunk_size) w outcome.
Proof.
  unfold recombine_model_chunked.
  post_skip. post_skip. post_skip.
  set (final := Path.join target_subdir combined_filename).
  apply post_catch.
  apply post_bind, post_any. intros [[]|e|] w3;
    [|apply chunked_handler_post|exact I].
  apply post_bind, post_any. intros [items|e|] w4;
    [|apply chunked_handler_post|exact I].
  apply post_bind.
  eapply post_weaken; [|apply copy_layers_post].
  intros [[|]|e|] w5 Hfailed;
    [| |apply chunked_handler_post|exact I].
  - unfold post, getsize, bind, call, lookup_node, print, ret.
    cbn [fs out io fst snd].
    destruct (fs w5 !! final) as [n|] eqn:Hn; cbn [fst snd raise].
    + cbn [outcome]. exists final, (st_size_of n), n. cbn [fs out].
      rewrite last_snoc. auto.
    + apply (chunked_handler_post final (Py.FileNotFoundError final)).
  - unfold post. cbn [ret fst snd outcome]. auto.
Qed.

Lemma in_memory_post blob_directory layers modelName target_subdir
    combined_filename w :
  post (recombine_model_in_memory blob_directory layers modelName
          target_subdir combined_filename) w outcome.
Proof.
  unfold recombine_model_in_memory.
  post_skip. post_skip. post_skip.
  apply post_bind, post_any. intros [[layer_contents errors]|e|] w4;
    [|exact I|exact I].
  cbn [fst snd]. destruct errors.
  - unfold post. cbn. apply failed_snoc. reflexivity.
  - destruct layer_contents as [|c cs].
    + unfold post. cbn. apply failed_snoc. reflexivity.
    + unfold post. rewrite write_combined_run.
      destruct (ensure_dir (fs w4) target_subdir) as [e|files1];
        [cbn; apply failed_snoc; reflexivity|].
      destruct (creatable files1 (Path.join target_subdir combined_filename))
        as [e|[]]; [cbn; apply failed_snoc; reflexivity|].
      cbn [fst snd outcome].
      eexists _, _, _. cbn [fs out]. rewrite last_snoc.
      split; [reflexivity|]. split; [apply lookup_insert_eq|reflexivity].
Qed.

(** [with open(p) as f: json.load(f)], whatever is at [p]. *)
Lemma json_load_outcome json_loads p w :
  json_load json_loads p w
  = (match blob_content (fs w) p with
     | inl excp => Raise excp
     | inr text =>
         match json_loads text with
         | Some v => Ok v
         | None => Raise Py.JSONDecodeError
         end
     end,
     mkWorld (fs w) (out w) (io w ++ [OpenRead p])).
Proof.
  unfold json_load, bind. rewrite read_all_run.
  destruct (blob_content (fs w) p) as [excp|text]; [reflexivity|].
  destruct (json_loads text); reflexivity.
Qed.

(** A failure of the metadata leaves the run as the exception of the
    failure, before anything is printed or written. *)
Lemma metadata_failure_raises json_loads py_str
    manifest_path blob_directory output_directory w excp :
  metadata_failure json_loads (fs w) manifest_path blob_directory excp ->
  let r := recombine_model json_loads py_str manifest_path blob_directory
                           output_directory w in
  fst r = Raise excp /\ fs (snd r) = fs w /\ out (snd r) = out w.
Proof.
  intros Hfail r. subst r. unfold recombine_model.
  destruct Hfail as
    [excp Hm
    |text Hm Hj
    |obj config Hobj Hc Hct
    |obj config digest Hobj Hc Hct Hd Hdt
    |obj sha_file excp Hobj Hsha Hcd
    |obj sha_file text Hobj Hsha Hcd Hj
    |obj sha_file config_data cause Hobj Hsha Hcd Hbad Hft
    |obj sha_file config_data modelQuant layers Hobj Hsha Hcd Hft Hl Hlt].
  - erewrite bind_raise
      by (rewrite json_load_outcome, Hm; reflexivity).
    cbn. auto.
  - erewrite bind_raise
      by (rewrite json_load_outcome, Hm, Hj; reflexivity).
    cbn. auto.
  - erewrite bind_ok by (apply json_load_run; exact Hobj).
    unfold sha_file_of. rewrite Hc. cbn [Py.and_then]. rewrite Hct.
    cbn. auto.
  - erewrite bind_ok by (apply json_load_run; exact Hobj).
    unfold sha_file_of. rewrite Hc. cbn [Py.and_then]. rewrite Hct.
    cbn [negb]. rewrite Hd. cbn [Py.and_then]. rewrite Hdt.
    cbn. auto.
  - erewrite bind_ok by (apply json_load_run; exact Hobj).
    rewrite Hsha. cbn [lift]. step.
    erewrite bind_raise
      by (rewrite json_load_outcome; cbn [fs]; rewrite Hcd; reflexivity).
    cbn. auto.
  - erewrite bind_ok by (apply json_load_run; exact Hobj).
    rewrite Hsha. cbn [lift]. step.
    erewrite bind_raise
      by (rewrite json_load_outcome; cbn [fs]; rewrite Hcd, Hj; reflexivity).
    cbn. auto.
  - erewrite bind_ok by (apply json_load_run; exact Hobj).
    rewrite Hsha. cbn [lift]. step.
    erewrite bind_ok by (apply json_load_run; cbn [fs]; exact Hcd).
    rewrite Hft. cbn. auto.
  - erewrite bind_ok by (apply json_load_run; exact Hobj).
    rewrite Hsha. cbn [lift]. step.
    erewrite bind_ok by (apply json_load_run; cbn [fs]; exact Hcd).
    cbn [fs out io]. rewrite Hft. cbn [lift]. step.
    destruct (model_type_total py_str _ _ Hft) as [t Ht]. rewrite Ht.
    cbn [lift]. step. rewrite Hl. cbn [lift]. step. rewrite Hlt.
    cbn. auto.
Qed.

(** C9. A run of [recombine_model] does not give its outcome through one
    channel.  A run that returns, returns [True] or [False] and nothing
    else: when it returns [True], the last line printed is the success
    line, made from the path of the output file, which is there, and from
    its size in bytes; when it returns [False], the last line printed
    reports the failure.  A failure of the metadata (a manifest or a
    configuration document that cannot be read or is not JSON, no [config],
    no [digest], a [file_type] that is not a non-empty string, no [layers])
    is not returned: the run ends with the exception of the failure, and
    nothing has been printed or written. *)
Theorem recombine_model_reports json_loads py_str
    manifest_path blob_directory output_directory w :
  let r := recombine_model json_loads py_str manifest_path blob_directory
                           output_directory w in
  (fst r = Ok true -> created (snd r))
  /\ (fst r = Ok false -> failed (snd r))
  /\ (forall excp,
         metadata_failure json_loads (fs w) manifest_path blob_directory
                          excp ->
         fst r = Raise excp /\ fs (snd r) = fs w /\ out (snd r) = out w).
Proof.
  intros r.
  assert (H : post (recombine_model json_loads py_str manifest_path
                      blob_directory output_directory) w outcome).
  { unfold recombine_model.
    post_skip. post_skip. post_skip. post_skip. post_skip. post_skip.
    destruct (negb _); [exact I|].
    post_skip. destruct (use_chunked _).
    - post_skip. apply chunked_post.
    - apply in_memory_post. }
  unfold post in H. fold r in H.
  split; [intros Hr; rewrite Hr in H; exact H|].
  split; [intros Hr; rewrite Hr in H; exact H|].
  intros excp Hfail.
  exact (metadata_failure_raises json_loads py_str manifest_path
           blob_directory output_directory w excp Hfail).
Qed.

(** ** The chunked strategy and a blob that is missing *)

Lemma copy_layers_app blob_directory modelName final chunk_size :
  chunk_size <> 0 ->
  forall items descs datas,
    Forall2 (layer_is blob_directory) items descs ->
    forall rest i w acc,
      Forall2 (fragment_at (fs w) final) descs datas ->
      fs w !! final = Some (File acc) ->
      exists evs,
        copy_layers (items ++ rest) i blob_directory modelName final
                    chunk_size w
        = copy_layers rest (i + length items) blob_directory modelName final
            chunk_size
            (mkWorld (<[final := File (acc ++ concat datas)]> (fs w))
                     (out w ++ evs)
                     (io w ++ flat_map copy_calls (map snd descs))).
Proof.
  intros Hcs items descs datas Hl. revert datas.
  induction Hl as [|l [mt p] items descs Hl _ IH];
    intros datas rest i w acc Hfr Hfin.
  - inversion Hfr; subst. exists []. cbn [app concat length map flat_map].
    rewrite !app_nil_r, insert_id, Nat.add_0_r by assumption.
    destruct w; reflexivity.
  - inversion Hfr as [|? data ? datas' [Hfile Hne] Hfr']; subst.
    cbn [snd] in Hfile, Hne. cbn [app].
    destruct (copy_layers_step blob_directory modelName final chunk_size
                l mt p (items ++ rest) i w data acc Hl Hne Hcs Hfile Hfin)
      as [evs Hstep].
    rewrite Hstep. set (w1 := mkWorld _ _ _).
    destruct (IH datas' rest (S i) w1 (acc ++ data)) as (evs' & Hrun).
    + subst w1. cbn [fs]. eapply Forall2_impl; [exact Hfr'|].
      intros d x [Hd Hd']. split; [|exact Hd'].
      rewrite lookup_insert_ne by auto. exact Hd.
    + subst w1. cbn [fs]. apply lookup_insert_eq.
    + rewrite Hrun. subst w1. cbn [fs out io concat length map flat_map snd].
      exists (evs ++ evs').
      rewrite insert_insert_eq, <- !app_assoc.
      replace (S i + length items)%nat with (i + S (length items))%nat by lia.
      reflexivity.
Qed.

Lemma copy_layers_missing blob_directory modelName final chunk_size
    l mt p rest i w :
  layer_is blob_directory l (mt, p) ->
  fs w !! p = None ->
  copy_layers (l :: rest) i blob_directory modelName final chunk_size w
  = (Ok false,
     mkWorld (fs w)
             (out w ++ [Layer_index i; Blob_not_found modelName mt p])
             (io w ++ [Exists p])).
Proof.
  intros [Hmt Hp] Hnone. cbn [fst snd] in Hmt, Hp.
  cbn [copy_layers]. rewrite Hmt, Hp. cbn [lift].
  step. step. step.
  erewrite bind_ok by apply path_exists_run. cbn beta. cbn [fs out io].
  rewrite Hnone.
  rewrite bool_decide_eq_false_2 by (intros [? ?]; discriminate).
  cbn [negb print bind ret fs out io]. rewrite <- app_assoc. reflexivity.
Qed.

(** The run of the chunked strategy up to a blob that is missing. *)
Lemma chunked_missing_run
    blob_directory modelName dir name chunk_size
    items descs datas l mt p rest w files1 :
  let final := Path.join dir name in
  Forall2 (layer_is blob_directory) items descs ->
  Forall2 (fragment_at (fs w) final) descs datas ->
  layer_is blob_directory l (mt, p) ->
  chunk_size <> 0 ->
  ensure_dir (fs w) dir = inr files1 ->
  creatable files1 final = inr tt ->
  files1 !! p = None ->
  p <> final ->
  exists evs,
    recombine_model_chunked blob_directory (Py.JArr (items ++ l :: rest))
                            modelName dir name chunk_size w
    = (Ok false,
       mkWorld (<[final := File (concat datas)]> files1)
               ((out w ++ evs) ++ [Blob_not_found modelName mt p])
               (io w ++ ensure_calls (fs w) dir ++ [OpenWrite final]
                ++ flat_map copy_calls (map snd descs) ++ [Exists p])).
Proof.
  intros final Hl Hfr Hlp Hcs Hdir Hcr Hnone Hne.
  unfold recombine_model_chunked.
  step. unfold bind at 1.
  pose proof (ensure_dir_run dir
                (mkWorld (fs w) (out w ++ [Msg_chunks chunk_size]) (io w)))
    as E.
  unfold bind at 1 in E. cbn [fs out io] in E. rewrite Hdir in E.
  destruct (path_exists dir _) as [[found| |] w0] eqn:Hex;
    rewrite path_exists_run in Hex; inversion Hex; subst; clear Hex.
  unfold bind at 1. cbn [fs out io]. rewrite E. clear E.
  fold final. unfold catch.
  erewrite bind_ok by (apply open_wb_ok; exact Hcr). cbn [fs out io].
  cbn [Py.iter lift]. step.
  set (w2 := mkWorld _ _ _).
  destruct (copy_layers_app blob_directory modelName final chunk_size Hcs
              items descs datas Hl (l :: rest) 0%nat w2 [])
    as (evs & Hrun).
  { subst w2. cbn [fs]. eapply Forall2_impl; [exact Hfr|].
    intros d x [Hd Hd']. split; [|exact Hd'].
    rewrite lookup_insert_ne by auto.
    eapply ensure_dir_lookup; eassumption. }
  { subst w2. cbn [fs]. apply lookup_insert_eq. }
  erewrite bind_ok; cycle 1.
  { rewrite Hrun. apply copy_layers_missing; [exact Hlp|].
    subst w2. cbn [fs]. rewrite !lookup_insert_ne by auto. exact Hnone. }
  cbn beta iota. subst w2. cbn [fs out io app ret].
  exists (Msg_chunks chunk_size :: evs ++ [Layer_index (0 + length items)]).
  rewrite insert_insert_eq.
  repeat (rewrite <- ?app_assoc; cbn [app]). reflexivity.
Qed.

(** C1. The chunked strategy, when the blob of a layer is missing and the
    blobs of the layers before it are regular files: the run returns
    [False] after the report on the missing blob, and the output file is
    still there, holding the blobs of the layers before the missing one.
    The calls made are listed in full: none of them removes the file. *)
Theorem chunked_missing_blob_keeps_partial_file
    blob_directory modelName dir name chunk_size
    items descs datas l mt p rest w files1 :
  let final := Path.join dir name in
  Forall2 (layer_is blob_directory) items descs ->
  Forall2 (fragment_at (fs w) final) descs datas ->
  layer_is blob_directory l (mt, p) ->
  chunk_size <> 0 ->
  ensure_dir (fs w) dir = inr files1 ->
  creatable files1 final = inr tt ->
  files1 !! p = None ->
  p <> final ->
  let r := recombine_model_chunked blob_directory
             (Py.JArr (items ++ l :: rest)) modelName dir name
             chunk_size w in
  fst r = Ok false
  /\ fs (snd r) = <[final := File (concat datas)]> files1
  /\ last (out (snd r)) = Some (Blob_not_found modelName mt p)
  /\ io (snd r)
     = io w ++ ensure_calls (fs w) dir ++ [OpenWrite final]
       ++ flat_map copy_calls (map snd descs) ++ [Exists p].
Proof.
  intros final Hl Hfr Hlp Hcs Hdir Hcr Hnone Hne r.
  destruct (chunked_missing_run blob_directory modelName dir name chunk_size
              items descs datas l mt p rest w files1
              Hl Hfr Hlp Hcs Hdir Hcr Hnone Hne) as [evs Hrun].
  subst r. fold final in Hrun. rewrite Hrun. cbn [fst snd fs out io].
  rewrite last_snoc. auto.
Qed.

(** ** What every run keeps *)

Create HintDb preserves.

Section Preserves.

Context (R : world -> world -> Prop) `{!Frame R}.

Lemma preserves_ret {A} (a : A) : preserves R (ret a).
Proof. intros w. apply frame_refl. Qed.

Lemma preserves_raise {A} e : preserves R (@raise A e).
Proof. intros w. apply frame_refl. Qed.

Lemma preserves_diverge {A} : preserves R (@diverge A).
Proof. intros w. apply frame_refl. Qed.

Lemma preserves_lift {A} (r : Py.exn + A) : preserves R (lift r).
Proof. destruct r; intros w; apply frame_refl. Qed.

Lemma preserves_bind {A B} (m : M A) (k : A -> M B) :
  preserves R m -> (forall a, preserves R (k a)) -> preserves R (bind m k).
Proof.
  intros Hm Hk w. unfold bind. specialize (Hm w).
  destruct (m w) as [[a|e|] w1]; cbn [snd] in *; auto.
  eapply frame_trans; [exact Hm|apply Hk].
Qed.

Lemma preserves_catch {A} (m : M A) (h : Py.exn -> M A) :
  preserves R m -> (forall e, preserves R (h e)) -> preserves R (catch m h).
Proof.
  intros Hm Hh w. unfold catch. specialize (Hm w).
  destruct (m w) as [[a|e|] w1]; cbn [snd] in *; auto.
  eapply frame_trans; [exact Hm|apply Hh].
Qed.

Lemma preserves_print ev : preserves R (print ev).
Proof. intros w. apply frame_print. Qed.

Lemma preserves_call a : preserves R (call a).
Proof. intros w. apply frame_call. Qed.

Lemma preserves_lookup_node p : preserves R (lookup_node p).
Proof. intros w. apply frame_refl. Qed.

#[local] Hint Resolve preserves_ret preserves_raise preserves_diverge
  preserves_lift preserves_print preserves_call preserves_lookup_node
  : preserves.

(** Through the binds, the handlers and the tests of a computation. *)
Ltac preserves_tac :=
  repeat first
    [ solve [auto with preserves]
    | apply preserves_bind; [|intros ?]
    | apply preserves_catch; [|intros ?]
    | match goal with
      | |- preserves _ (match ?x with _ => _ end) => destruct x
      | |- preserves _ (let _ := _ in _) => cbv zeta
      end ].

Lemma preserves_path_exists p : preserves R (path_exists p).
Proof. unfold path_exists. preserves_tac. Qed.

Lemma preserves_getsize p : preserves R (getsize p).
Proof. unfold getsize. preserves_tac. Qed.

Lemma preserves_read_all p : preserves R (read_all p).
Proof. unfold read_all. preserves_tac. Qed.

#[local] Hint Resolve preserves_path_exists preserves_getsize
  preserves_read_all : preserves.

Lemma preserves_json_load json_loads p :
  preserves R (json_load json_loads p).
Proof. unfold json_load. preserves_tac. Qed.

Lemma preserves_sum_layer_sizes blob_directory items :
  forall total_size,
    preserves R (sum_layer_sizes items blob_directory total_size).
Proof.
  induction items as [|l items IH]; intros total; cbn [sum_layer_sizes];
    [apply preserves_ret|].
  preserves_tac; apply IH.
Qed.

Lemma preserves_get_model_size layers blob_directory :
  preserves R (get_model_size layers blob_directory).
Proof.
  unfold get_model_size. preserves_tac. apply preserves_sum_layer_sizes.
Qed.

#[local] Hint Resolve preserves_json_load preserves_get_model_size
  : preserves.

(** The listing of [main] uses nothing but the steps above. *)
Lemma preserves_list_model json_loads blob_dir index manifest_path :
  preserves R (list_model json_loads blob_dir index manifest_path).
Proof. unfold list_model. preserves_tac. Qed.

Lemma preserves_list_models json_loads blob_dir manifests :
  forall index,
    preserves R (list_models json_loads blob_dir index manifests).
Proof.
  induction manifests as [|m manifests IH]; intros index;
    cbn [list_models]; [apply preserves_ret|].
  apply preserves_bind; [apply preserves_list_model|]. intros _. apply IH.
Qed.

End Preserves.

Lemma append_assoc (a b c : string) : (a +:+ b) +:+ c = a +:+ b +:+ c.
Proof.
  induction a as [|x a IH]; [reflexivity|].
  change (String x ((a +:+ b) +:+ c) = String x (a +:+ b +:+ c)).
  rewrite IH. reflexivity.
Qed.

#[export] Instance same_files_frame : Frame same_files.
Proof.
  split; unfold same_files; cbn [fs]; try reflexivity.
  intros w1 w2 w3 H12 H23. congruence.
Qed.

(** ** What the list of models leaves alone *)

(** X3. The list of models that [main] prints leaves the file system as it is,
    whatever the manifests hold and however the listing ends. *)
Theorem listing_keeps_file_system json_loads blob_dir index manifests w :
  fs (snd (list_models json_loads blob_dir index manifests w)) = fs w.
Proof. exact (preserves_list_models same_files json_loads blob_dir manifests index w). Qed.

(** ** A conversion that goes through *)

Lemma layer_paths blob_directory items descs :
  Forall2 (layer_is blob_directory) items descs ->
  Forall2 (fun l p => source_blob_of blob_directory l = inr p)
          items (map snd descs).
Proof.
  induction 1 as [|l d items descs [_ Hp] _ IH]; constructor; assumption.
Qed.

Section EndToEnd.

Variable json_loads : list byte -> option Py.json.
Variable py_str : Py.json -> string.

(** X4. From the manifest to the output file.  When the two documents are in
    order, every layer has its blob, a regular file, and the output file can
    be made, the run returns [True] whichever strategy the sizes select; the
    output file is [<output>/<model>/<model>-<model_type>-<file_type>.gguf]
    and holds the blobs one after the other in the order of the layers; the
    last line printed gives its path and its size. *)
Theorem recombine_model_assembles
    manifest_path blob_directory output_directory w obj sha_file
    config_data modelQuant trained_on items descs datas files1 :
  let modelName := Path.basename (Path.dirname manifest_path) in
  let target_subdir := Path.join output_directory modelName in
  let final :=
    Path.join target_subdir
      (modelName +:+ "-" +:+ trained_on +:+ "-" +:+ modelQuant +:+ ".gguf") in
  holds_json json_loads (fs w) manifest_path obj ->
  sha_file_of blob_directory obj = inr sha_file ->
  holds_json json_loads (fs w) sha_file config_data ->
  file_type_of config_data = inr modelQuant ->
  model_type_of py_str config_data = inr trained_on ->
  Py.get obj "layers" = inr (Py.JArr items) ->
  items <> [] ->
  Forall2 (layer_is blob_directory) items descs ->
  Forall2 (fragment_at (fs w) final) descs datas ->
  ensure_dir (fs w) target_subdir = inr files1 ->
  creatable files1 final = inr tt ->
  let r := recombine_model json_loads py_str manifest_path blob_directory
                           output_directory w in
  fst r = Ok true
  /\ fs (snd r) = <[final := File (concat datas)]> files1
  /\ last (out (snd r))
     = Some (Msg_created final (byte_len (concat datas))).
Proof.
  intros modelName target_subdir final
         Hobj Hsha Hcd Hft Hmt Hlayers Hne Hl Hfr Hdir Hcr r.
  subst r.
  rewrite (recombine_model_dispatch json_loads py_str _ _ _ _ _ _ _ _ _ _ _
             Hobj Hsha Hcd Hft Hmt Hlayers Hne (layer_paths _ _ _ Hl)).
  fold modelName target_subdir.
  set (w1 := mkWorld _ _ _).
  destruct (use_chunked _).
  - erewrite bind_ok by reflexivity. cbn beta.
    set (w2 := mkWorld _ _ _).
    destruct (chunked_run blob_directory modelName target_subdir
                (modelName +:+ "-" +:+ trained_on +:+ "-" +:+ modelQuant
                 +:+ ".gguf") default_chunk_size items descs datas w2 files1)
      as (evs & calls & Hrun); try assumption; [discriminate|].
    fold final in Hrun. rewrite Hrun. cbn [fst snd fs out].
    rewrite !app_assoc, last_snoc. auto.
  - rewrite (in_memory_run _ _ _ _ _ _ _ Hl).
    destruct (fragments_readable _ _ _ _ Hfr) as [Hall Hc].
    subst w1. cbn [fs out io]. rewrite Hall, Hc.
    destruct datas as [|data datas'].
    + inversion Hfr; subst. inversion Hl; subst. contradiction.
    + rewrite write_combined_run. cbn [fs out io]. rewrite Hdir.
      fold final. rewrite Hcr. cbn [fst snd fs out].
      rewrite last_snoc. auto.
Qed.

End EndToEnd.

(** ** The chunked strategy and an output path that is a directory *)

(** X5. When the output path is a directory, [open] fails inside the [try]
    block: the chunked strategy prints the error and returns [False];
    [os.remove] is called on the path, fails in its turn, and the failure is
    passed over in silence: the directory stays, and "Removed incomplete
    output file." is not printed. *)
Theorem chunked_output_path_is_directory
    blob_directory layers modelName dir name chunk_size w files1 st_size :
  let final := Path.join dir name in
  ensure_dir (fs w) dir = inr files1 ->
  files1 !! final = Some (Dir st_size) ->
  recombine_model_chunked blob_directory layers modelName dir name
                          chunk_size w
  = (Ok false,
     mkWorld files1
       (out w ++ [Msg_chunks chunk_size;
                  Msg_chunked_error (Py.IsADirectoryError final)])
       (io w ++ ensure_calls (fs w) dir
        ++ [OpenWrite final; Exists final; Remove final])).
Proof.
  intros final Hdir Hfinal. unfold recombine_model_chunked.
  step. unfold bind at 1.
  pose proof (ensure_dir_run dir
                (mkWorld (fs w) (out w ++ [Msg_chunks chunk_size]) (io w)))
    as E.
  unfold bind at 1 in E. cbn [fs out io] in E. rewrite Hdir in E.
  destruct (path_exists dir _) as [[found| |] w0] eqn:Hex;
    rewrite path_exists_run in Hex; inversion Hex; subst; clear Hex.
  unfold bind at 1. cbn [fs out io]. rewrite E. clear E.
  fold final. unfold catch at 1.
  erewrite bind_raise; cycle 1.
  { rewrite open_wb_run. unfold creatable. cbn [fs]. rewrite Hfinal.
    reflexivity. }
  step. erewrite bind_ok by apply path_exists_run. cbn beta. cbn [fs out io].
  rewrite bool_decide_eq_true_2 by eauto. cbn [when].
  unfold remove, catch, bind, call, lookup_node, raise, ret.
  cbn [fs out io]. rewrite Hfinal.
  repeat (rewrite <- ?app_assoc; cbn [app]). reflexivity.
Qed.

(** ** From a digest to the path of a blob *)

Lemma split_on_lacks sep s :
  lacks sep s = true -> Py.split_on sep s = [s].
Proof.
  induction s as [|c s IH]; [reflexivity|]. cbn [lacks Py.split_on].
  destruct (Ascii.eqb c sep); [discriminate|]. cbn [negb andb].
  intros H. rewrite (IH H). reflexivity.
Qed.

Lemma split_on_app sep a b :
  lacks sep a = true ->
  Py.split_on sep (a +:+ String sep b) = a :: Py.split_on sep b.
Proof.
  induction a as [|c a IH].
  - intros _. change (EmptyString +:+ String sep b) with (String sep b).
    cbn [Py.split_on]. rewrite Ascii.eqb_refl. reflexivity.
  - cbn [lacks]. change (String c a +:+ String sep b)
      with (String c (a +:+ String sep b)).
    cbn [Py.split_on]. destruct (Ascii.eqb c sep); [discriminate|].
    cbn [negb andb]. intros H. rewrite (IH H). reflexivity.
Qed.

(** X6. A digest [<algorithm>:<hex>] with one colon names the blob
    [<blob directory>/sha256-<hex>], for a layer (which takes the part after
    the first colon) and for the configuration (which takes the part after
    the last one) alike. *)
Theorem digest_names_blob blob_directory algorithm hex members :
  lacks ":" algorithm = true ->
  lacks ":" hex = true ->
  Py.assoc "digest" members
  = Some (Py.JStr (algorithm +:+ String ":" hex)) ->
  source_blob_of blob_directory (Py.JObj members)
  = inr (Path.join blob_directory ("sha256-" +:+ hex))
  /\ sha_file_of blob_directory (Py.JObj [("config", Py.JObj members)])
     = inr (Path.join blob_directory ("sha256-" +:+ hex)).
Proof.
  intros Ha Hh Hd. split.
  - unfold source_blob_of, Py.getitem. rewrite Hd.
    cbn [Py.and_then Py.split_colon].
    rewrite (split_on_app _ _ _ Ha), (split_on_lacks _ _ Hh). reflexivity.
  - unfold sha_file_of. cbn [Py.get Py.assoc String.eqb Ascii.eqb Bool.eqb].
    change (String.eqb "config" "config") with true.
    cbn [default from_option id Py.and_then Py.truthy Py.get].
    destruct members as [|m members]; [discriminate|]. cbn [negb].
    rewrite Hd. cbn [default from_option id Py.and_then Py.truthy].
    replace (String.eqb (algorithm +:+ String ":" hex) EmptyString)
      with false by (destruct algorithm; reflexivity).
    cbn [negb Py.split_colon Py.and_then].
    rewrite (split_on_app _ _ _ Ha), (split_on_lacks _ _ Hh). reflexivity.
Qed.

(** ** The loop of [main] *)

Lemma bind_ext_r {A B} (m : M A) (k k' : A -> M B) w :
  (forall a w1, k a w1 = k' a w1) -> bind m k w = bind m k' w.
Proof.
  intros H. unfold bind. destruct (m w) as [[a|e|] w1]; auto.
Qed.

Lemma sha_file_of_inv blob_directory obj sha_file :
  sha_file_of blob_directory obj = inr sha_file ->
  exists config digest parts sha_value,
    Py.get obj "config" = inr config
    /\ Py.truthy config = true
    /\ Py.get config "digest" = inr digest
    /\ Py.truthy digest = true
    /\ Py.split_colon digest = inr parts
    /\ Py.index_last parts = inr sha_value
    /\ sha_file = Path.join blob_directory ("sha256-" +:+ sha_value).
Proof.
  unfold sha_file_of.
  destruct (Py.get obj "config") as [e|config] eqn:H1; [discriminate|].
  cbn [Py.and_then].
  destruct (Py.truthy config) eqn:H2; [|discriminate]. cbn [negb].
  destruct (Py.get config "digest") as [e|digest] eqn:H3; [discriminate|].
  cbn [Py.and_then].
  destruct (Py.truthy digest) eqn:H4; [|discriminate]. cbn [negb].
  destruct (Py.split_colon digest) as [e|parts] eqn:H5; [discriminate|].
  cbn [Py.and_then].
  destruct (Py.index_last parts) as [e|sha_value] eqn:H6; [discriminate|].
  cbn [Py.and_then]. intros H. inversion H; subst.
  exists config, digest, parts, sha_value. repeat split; auto.
Qed.

Section MainLoop.

Variable json_loads : list byte -> option Py.json.
Variable py_str : Py.json -> string.
Variable py_int : string -> option Z.
Variable manifest_locations : list string.
Variable blob_dir : string.
Variable outputModels_dir : string.

Local Abbreviation convert manifest_path :=
  (recombine_model json_loads py_str manifest_path blob_dir outputModels_dir).
Local Abbreviation handle :=
  (handle_choice json_loads py_str py_int manifest_locations blob_dir
                 outputModels_dir).
Local Abbreviation loop :=
  (main_loop json_loads py_str py_int manifest_locations blob_dir
             outputModels_dir).
Local Abbreviation listing := (list_model json_loads blob_dir).

(** The [try] block up to the call of [recombine_model], for a number of
    the list. *)
Lemma handle_choice_converts line choice manifest_path w :
  py_int line = Some choice ->
  1 <= choice ->
  nth_error manifest_locations (Z.to_nat (choice - 1)) = Some manifest_path ->
  handle line w
  = catch
      (success <- convert manifest_path;;
       (if success
        then print (Msg_converted
                      (Path.basename (Path.dirname manifest_path)))
        else print (Msg_conversion_failed
                      (Path.basename (Path.dirname manifest_path))));;
       ret true)
      (fun excp =>
         if Py.is_ValueError excp then print Msg_invalid_input;; ret true
         else raise excp) w.
Proof.
  intros Hint Hge Hnth. unfold handle_choice. rewrite Hint.
  apply catch_ext_l. cbn [lift]. step.
  replace (Z.eqb choice 0) with false by (symmetry; apply Z.eqb_neq; lia).
  assert (Hlen : choice <= Z.of_nat (length manifest_locations)).
  { assert (Z.to_nat (choice - 1) < length manifest_locations)%nat
      by (apply nth_error_Some; congruence). lia. }
  replace (Z.leb 1 choice) with true by (symmetry; apply Z.leb_le; lia).
  replace (Z.leb choice (Z.of_nat (length manifest_locations))) with true
    by (symmetry; apply Z.leb_le; lia).
  cbn [andb]. unfold chosen. rewrite Hnth. cbn [lift]. step. reflexivity.
Qed.

(** X7. A [ValueError] that the conversion raises (a manifest with no [config],
    a configuration document with no [file_type], a document that is not
    JSON, ...) is taken by the [except ValueError] of [main], which was
    written for a line that is not a number: [main] prints "Invalid input.
    Please enter a number." and goes on with the loop. *)
Theorem value_error_is_reported_as_invalid_input
    line choice manifest_path excp w w' :
  py_int line = Some choice ->
  1 <= choice ->
  nth_error manifest_locations (Z.to_nat (choice - 1)) = Some manifest_path ->
  convert manifest_path w = (Raise excp, w') ->
  Py.is_ValueError excp = true ->
  handle line w
  = (Ok true, mkWorld (fs w') (out w' ++ [Msg_invalid_input]) (io w')).
Proof.
  intros Hint Hge Hnth Hrun Hve.
  rewrite (handle_choice_converts _ _ _ _ Hint Hge Hnth).
  unfold catch. erewrite bind_raise by exact Hrun. rewrite Hve. reflexivity.
Qed.

(** X8. An exception of the conversion that is not a [ValueError] (a manifest
    that is not there, a layer with no [mediaType], ...) is not handled: it
    leaves the [try] block, and so [main], and nothing more is printed. *)
Theorem other_exception_leaves_main
    line choice manifest_path excp w w' :
  py_int line = Some choice ->
  1 <= choice ->
  nth_error manifest_locations (Z.to_nat (choice - 1)) = Some manifest_path ->
  convert manifest_path w = (Raise excp, w') ->
  Py.is_ValueError excp = false ->
  handle line w = (Raise excp, w').
Proof.
  intros Hint Hge Hnth Hrun Hve.
  rewrite (handle_choice_converts _ _ _ _ Hint Hge Hnth).
  unfold catch. erewrite bind_raise by exact Hrun. rewrite Hve. reflexivity.
Qed.

(** X9. A line that is not a number, or a number that is below zero or above
    the number of models: one line is printed, and nothing else happens; no
    file is looked at. *)
Theorem rejected_line_only_prints line w :
  match py_int line with
  | None => True
  | Some choice =>
      choice < 0 \/ Z.of_nat (length manifest_locations) < choice
  end ->
  handle line w
  = (Ok true,
     mkWorld (fs w) (out w ++ [rejection (py_int line)]) (io w)).
Proof.
  unfold handle_choice, catch, rejection.
  destruct (py_int line) as [choice|]; [|reflexivity].
  intros Hout. cbn [lift]. step.
  replace (Z.eqb choice 0) with false by (symmetry; apply Z.eqb_neq; lia).
  replace (Z.leb 1 choice
           && Z.leb choice (Z.of_nat (length manifest_locations)))
    with false; [reflexivity|].
  symmetry. apply andb_false_iff.
  destruct Hout; [left; apply Z.leb_gt; lia|right; apply Z.leb_gt; lia].
Qed.

(** The [try] block answers [False], which ends the loop, only for the
    number 0, after "Exiting.". *)
Lemma handle_choice_post line w :
  post (handle line) w
       (fun r w1 =>
          r = Ok false ->
          py_int line = Some 0 /\ last (out w1) = Some Msg_exiting).
Proof.
  unfold handle_choice. apply post_catch, post_bind.
  assert (Hh : forall excp w1,
             post (if Py.is_ValueError excp
                   then print Msg_invalid_input;; ret true
                   else raise excp) w1
               (fun r w2 =>
                  r = Ok false ->
                  py_int line = Some 0 /\ last (out w2) = Some Msg_exiting)).
  { intros excp w1. unfold post.
    destruct (Py.is_ValueError excp); cbn; discriminate. }
  destruct (py_int line) as [choice|]; unfold post at 1;
    cbn [lift raise ret fst snd]; [|apply Hh].
  destruct (Z.eqb choice 0) eqn:Hz.
  - apply Z.eqb_eq in Hz. subst choice. unfold post. cbn.
    rewrite last_snoc. auto.
  - destruct (_ && _).
    + apply post_bind, post_any. intros [manifest_path|e|] w1;
        [|apply Hh|discriminate].
      apply post_bind, post_any. intros [success|e|] w2;
        [|apply Hh|discriminate].
      unfold post. destruct success; cbn; discriminate.
    + unfold post. cbn. discriminate.
Qed.

Lemma main_loop_post fuel :
  forall inputs w,
    post (loop fuel inputs) w
         (fun r w1 =>
            r = Ok tt ->
            (manifest_locations = []
             /\ last (out w1) = Some Msg_no_manifests)
            \/ (manifest_locations <> []
                /\ last (out w1) = Some Msg_exiting
                /\ exists line, line ∈ inputs /\ py_int line = Some 0)).
Proof.
  induction fuel as [|fuel IH]; intros inputs w; cbn [main_loop].
  - unfold post. cbn. discriminate.
  - destruct manifest_locations as [|m ms] eqn:Hm.
    + unfold post. cbn. rewrite last_snoc. auto.
    + rewrite <- Hm in *.
      assert (Hne : manifest_locations <> []) by congruence.
      apply post_bind, post_any. intros [[]|e|] w1; [|discriminate..].
      apply post_bind, post_any. intros [[]|e|] w2; [|discriminate..].
      apply post_bind, post_any. intros [[]|e|] w3; [|discriminate..].
      destruct inputs as [|line rest]; [unfold post; cbn; discriminate|].
      apply post_bind.
      eapply post_weaken; [|apply handle_choice_post].
      intros [[|]|e|] w4 Hexit; [| |discriminate..].
      * eapply post_weaken; [|apply IH].
        intros r w5 H Hr.
        destruct (H Hr) as [[Hnil _]|(_ & Hlast & l & Hl & Hz)];
          [contradiction|].
        right. split; [exact Hne|]. split; [exact Hlast|].
        exists l. split; [right; exact Hl|exact Hz].
      * unfold post. cbn [ret fst snd]. intros _.
        destruct (Hexit eq_refl) as [Hz Hlast].
        right. split; [exact Hne|]. split; [exact Hlast|].
        exists line. split; [left|exact Hz].
Qed.

(** X10. [main] returns only through one of its two [break]s: when there is no
    manifest, after "No manifest files found."; otherwise after "Exiting.",
    and then one of the lines typed was the number 0. *)
Theorem main_returns_only_by_break inputs w :
  let r := main json_loads py_str py_int manifest_locations blob_dir
                outputModels_dir inputs w in
  fst r = Ok tt ->
  (manifest_locations = []
   /\ last (out (snd r)) = Some Msg_no_manifests)
  \/ (manifest_locations <> []
      /\ last (out (snd r)) = Some Msg_exiting
      /\ exists line, line ∈ inputs /\ py_int line = Some 0).
Proof.
  intros r. subst r. unfold main.
  exact (main_loop_post (S (length inputs)) inputs w).
Qed.

Lemma main_loop_enough fuel :
  forall fuel' inputs w,
    (length inputs < fuel)%nat -> (length inputs < fuel')%nat ->
    loop fuel inputs w = loop fuel' inputs w.
Proof.
  induction fuel as [|fuel IH]; intros fuel' inputs w H1 H2; [lia|].
  destruct fuel' as [|fuel']; [lia|]. cbn [main_loop].
  destruct manifest_locations; [reflexivity|].
  apply bind_ext_r. intros _ w1. apply bind_ext_r. intros _ w2.
  apply bind_ext_r. intros _ w3.
  destruct inputs as [|line rest]; [reflexivity|].
  apply bind_ext_r. intros again w4. destruct again; [|reflexivity].
  cbn [length] in H1, H2. apply IH; lia.
Qed.

(** X11. A turn of the loop that does not leave it takes a line of the input:
    with [n] lines to read, [n + 1] turns are all the loop can make, and
    allowing it more changes nothing.  So [main] goes on for ever only if a
    conversion does. *)
Theorem main_loop_takes_a_line_per_turn more inputs w :
  loop (S (length inputs) + more) inputs w
  = main json_loads py_str py_int manifest_locations blob_dir
         outputModels_dir inputs w.
Proof. unfold main. apply main_loop_enough; lia. Qed.

(** The configuration document is loaded inside [try ... except Exception]:
    whatever happens there, the quantization is a value, "Unknown" for a
    failure, and the file system and the output are as they were. *)
Lemma listing_quantization sha_file w :
  catch
    (config_data <- json_load json_loads sha_file;;
     lift (Py.get_default config_data "file_type" unknown))
    (fun _ => ret unknown) w
  = (Ok (shown_quantization json_loads (fs w) sha_file),
     mkWorld (fs w) (out w) (io w ++ [OpenRead sha_file])).
Proof.
  unfold catch, json_load, bind, shown_quantization. rewrite read_all_run.
  destruct (blob_content (fs w) sha_file) as [e|text]; [reflexivity|].
  destruct (json_loads text) as [config_data|]; [|reflexivity].
  cbn [ret]. destruct (Py.get_default config_data "file_type" unknown);
    reflexivity.
Qed.

(** The line of the list of models for a manifest whose metadata is in
    order: the size is the estimate, "Unknown" when the estimate is 0; the
    only calls are those that open the two documents and measure the
    blobs. *)
Lemma list_model_run index manifest_path w obj sha_file items paths :
  holds_json json_loads (fs w) manifest_path obj ->
  sha_file_of blob_dir obj = inr sha_file ->
  Py.get_default obj "layers" (Py.JArr []) = inr (Py.JArr items) ->
  Forall2 (fun l p => source_blob_of blob_dir l = inr p) items paths ->
  let total := Zsum (map (size_or_zero (fs w)) paths) in
  listing index manifest_path w
  = (Ok tt,
     mkWorld (fs w)
       (out w ++ [Listing index
                    (Path.basename (Path.dirname manifest_path))
                    (Path.basename manifest_path)
                    (shown_quantization json_loads (fs w) sha_file)
                    (if Z.gtb total 0 then Some total else None)])
       (io w ++ metadata_calls (fs w) manifest_path sha_file paths)).
Proof.
  intros Hobj Hsha Hlayers Hpaths total.
  destruct (sha_file_of_inv _ _ _ Hsha)
    as (config & digest & parts & sha_value
        & Hc & Hct & Hd & Hdt & Hp & Hs & ->).
  unfold list_model.
  erewrite bind_ok by (apply json_load_run; exact Hobj).
  rewrite Hc. cbn [lift]. step. rewrite Hct. cbn [negb].
  rewrite Hd. cbn [lift]. step. rewrite Hdt. cbn [negb].
  rewrite Hp. cbn [lift]. step. rewrite Hs. cbn [lift]. step.
  erewrite bind_ok by apply listing_quantization. cbn beta. cbn [fs out io].
  rewrite Hlayers. cbn [lift]. step.
  erewrite bind_ok by (apply get_model_size_run; exact Hpaths).
  cbn [fs out io print]. fold total.
  unfold metadata_calls. rewrite <- !app_assoc. reflexivity.
Qed.

(** X12. A configuration document that cannot be loaded (it is missing, it is a
    directory, it cannot be read, it is not JSON) does not stop the list of
    models: the line of the model is printed with the quantization
    "Unknown", and with the size, which does not depend on the document. *)
Theorem listing_survives_unreadable_configuration
    index manifest_path w obj sha_file items paths :
  holds_json json_loads (fs w) manifest_path obj ->
  sha_file_of blob_dir obj = inr sha_file ->
  (forall config_data,
      ~ holds_json json_loads (fs w) sha_file config_data) ->
  Py.get_default obj "layers" (Py.JArr []) = inr (Py.JArr items) ->
  Forall2 (fun l p => source_blob_of blob_dir l = inr p) items paths ->
  let total := Zsum (map (size_or_zero (fs w)) paths) in
  listing index manifest_path w
  = (Ok tt,
     mkWorld (fs w)
       (out w ++ [Listing index
                    (Path.basename (Path.dirname manifest_path))
                    (Path.basename manifest_path) unknown
                    (if Z.gtb total 0 then Some total else None)])
       (io w ++ metadata_calls (fs w) manifest_path sha_file paths)).
Proof.
  intros Hobj Hsha Hbad Hlayers Hpaths total.
  rewrite (list_model_run index manifest_path w obj sha_file items paths
             Hobj Hsha Hlayers Hpaths).
  fold total.
  replace (shown_quantization json_loads (fs w) sha_file) with unknown;
    [reflexivity|].
  unfold shown_quantization, blob_content.
  destruct (fs w !! sha_file) as [[sz|text|sz rd]|] eqn:Hf; try reflexivity.
  destruct (json_loads text) as [config_data|] eqn:Hj; [|reflexivity].
  exfalso. apply (Hbad config_data). exists text. auto.
Qed.

(** X13. A manifest whose [layers] is [null]: [obj.get('layers', [])] gives
    [None], not the empty list, and the estimate of the size iterates over
    it: the list of models ends with a [TypeError], before the line of the
    model is printed. *)
Theorem listing_raises_on_null_layers
    index manifest_path w members sha_file :
  holds_json json_loads (fs w) manifest_path (Py.JObj members) ->
  sha_file_of blob_dir (Py.JObj members) = inr sha_file ->
  Py.assoc "layers" members = Some Py.JNull ->
  let r := listing index manifest_path w in
  fst r = Raise Py.TypeError
  /\ out (snd r) = out w
  /\ fs (snd r) = fs w.
Proof.
  intros Hobj Hsha Hnull r. subst r.
  destruct (sha_file_of_inv _ _ _ Hsha)
    as (config & digest & parts & sha_value
        & Hc & Hct & Hd & Hdt & Hp & Hs & ->).
  unfold list_model.
  erewrite bind_ok by (apply json_load_run; exact Hobj).
  rewrite Hc. cbn [lift]. step. rewrite Hct. cbn [negb].
  rewrite Hd. cbn [lift]. step. rewrite Hdt. cbn [negb].
  rewrite Hp. cbn [lift]. step. rewrite Hs. cbn [lift]. step.
  erewrite bind_ok by apply listing_quantization. cbn beta.
  unfold Py.get_default. rewrite Hnull. cbn. auto.
Qed.

End MainLoop.

(** ** The name of the model *)

Lemma split_on_cons sep s :
  exists h t, Py.split_on sep s = h :: t.
Proof.
  destruct s as [|c s]; cbn [Py.split_on]; [eauto|].
  destruct (Ascii.eqb c sep); [eauto|].
  destruct (Py.split_on sep s); eauto.
Qed.

(** [(a + sep + b).split(sep) == a.split(sep) + b.split(sep)]. *)
Lemma split_on_join sep a b :
  Py.split_on sep (a +:+ String sep b)
  = Py.split_on sep a ++ Py.split_on sep b.
Proof.
  induction a as [|c a IH].
  - change (EmptyString +:+ String sep b) with (String sep b).
    cbn [Py.split_on]. rewrite Ascii.eqb_refl. reflexivity.
  - change (String c a +:+ String sep b)
      with (String c (a +:+ String sep b)).
    cbn [Py.split_on]. rewrite IH.
    destruct (Ascii.eqb c sep); [reflexivity|].
    destruct (split_on_cons sep a) as (h & t & ->). reflexivity.
Qed.

(** The parts, each with the separator after it, make the string with the
    separator after it. *)
Lemma concat_split_on sep s :
  String.concat EmptyString
    (map (fun x => x +:+ String sep EmptyString) (Py.split_on sep s))
  = s +:+ String sep EmptyString.
Proof.
  induction s as [|c s IH]; [reflexivity|].
  cbn [Py.split_on]. destruct (Ascii.eqb c sep) eqn:Hc.
  - apply Ascii.eqb_eq in Hc. subst c.
    destruct (split_on_cons sep s) as (h & t & Hs). rewrite Hs in *.
    cbn [map String.concat] in *. rewrite IH. reflexivity.
  - destruct (split_on_cons sep s) as (h & t & Hs). rewrite Hs in *.
    cbn [map] in *.
    change (String c h +:+ String sep EmptyString)
      with (String c (h +:+ String sep EmptyString)).
    destruct t as [|x t]; cbn [map String.concat] in *.
    + rewrite IH. reflexivity.
    + change (String c (h +:+ String sep EmptyString) +:+ ?r)
        with (String c ((h +:+ String sep EmptyString) +:+ r)).
      cbn [String.append] in *. rewrite IH. reflexivity.
Qed.

Lemma all_slashes_lacks x name :
  lacks "/" name = true -> name <> EmptyString ->
  Path.all_slashes (x +:+ name +:+ "/") = false.
Proof.
  intros Hl Hne. induction x as [|c x IH].
  - destruct name as [|c name]; [contradiction|].
    cbn [lacks] in Hl.
    change (EmptyString +:+ String c name +:+ "/")
      with (String c (name +:+ "/")).
    cbn [Path.all_slashes].
    destruct (Ascii.eqb c "/"); [discriminate|reflexivity].
  - change (String c x +:+ name +:+ "/") with (String c (x +:+ name +:+ "/")).
    cbn [Path.all_slashes]. rewrite IH. apply andb_false_r.
Qed.

Lemma rstrip_slash_name name :
  lacks "/" name = true -> Path.rstrip_slash (name +:+ "/") = name.
Proof.
  induction name as [|c name IH]; [reflexivity|].
  cbn [lacks]. destruct (Ascii.eqb c "/") eqn:Hc; [discriminate|].
  cbn [negb andb]. intros Hl.
  change (String c name +:+ "/") with (String c (name +:+ "/")).
  cbn [Path.rstrip_slash Path.all_slashes]. rewrite Hc. cbn [andb].
  rewrite (IH Hl). reflexivity.
Qed.

Lemma rstrip_slash_path x name :
  lacks "/" name = true -> name <> EmptyString ->
  Path.rstrip_slash (x +:+ name +:+ "/") = x +:+ name.
Proof.
  intros Hl Hne. induction x as [|c x IH].
  - apply rstrip_slash_name, Hl.
  - change (String c x +:+ name +:+ "/") with (String c (x +:+ name +:+ "/")).
    cbn [Path.rstrip_slash].
    change (String c (x +:+ name +:+ "/")) with (String c x +:+ name +:+ "/").
    rewrite (all_slashes_lacks (String c x) name Hl Hne). rewrite IH.
    reflexivity.
Qed.

Lemma basename_join x name :
  lacks "/" name = true -> Path.basename (x +:+ String "/" name) = name.
Proof.
  intros Hl. unfold Path.basename.
  rewrite split_on_join, (split_on_lacks _ _ Hl).
  apply List.last_last.
Qed.

Lemma head_join x name :
  lacks "/" name = true -> Path.head (x +:+ String "/" name) = x +:+ "/".
Proof.
  intros Hl. unfold Path.head.
  rewrite split_on_join, (split_on_lacks _ _ Hl), removelast_last.
  apply (concat_split_on "/").
Qed.

(** X15. The manifest of a model is [<...>/<model>/<tag>]: the name under which
    the model is listed and converted, the base name of the directory of
    the manifest, is [<model>], and the base name of the manifest is
    [<tag>]. *)
Theorem model_name_of_manifest_path parent model tag :
  lacks "/" model = true -> model <> EmptyString ->
  lacks "/" tag = true ->
  let manifest_path := (parent +:+ "/" +:+ model) +:+ String "/" tag in
  Path.dirname manifest_path = parent +:+ "/" +:+ model
  /\ Path.basename (Path.dirname manifest_path) = model
  /\ Path.basename manifest_path = tag.
Proof.
  intros Hm Hne Ht manifest_path.
  assert (Hd : Path.dirname manifest_path = parent +:+ "/" +:+ model).
  { unfold Path.dirname, manifest_path. rewrite (head_join _ _ Ht).
    pose proof (all_slashes_lacks (parent +:+ "/") model Hm Hne) as Hs.
    pose proof (rstrip_slash_path (parent +:+ "/") model Hm Hne) as Hr.
    rewrite !append_assoc in Hs, Hr. rewrite !append_assoc.
    rewrite Hs, Hr.
    replace (String.eqb (parent +:+ "/" +:+ model +:+ "/") EmptyString)
      with false by (destruct parent; reflexivity).
    cbn [negb andb]. apply append_assoc. }
  split; [exact Hd|]. split.
  - rewrite Hd. apply (basename_join parent model Hm).
  - apply basename_join, Ht.
Qed.

(** ** The estimate and a layer that cannot be used *)

Lemma sum_layer_sizes_app blob_directory items paths :
  Forall2 (fun l p => source_blob_of blob_directory l = inr p) items paths ->
  forall rest total_size w,
    sum_layer_sizes (items ++ rest) blob_directory total_size w
    = sum_layer_sizes rest blob_directory
        (total_size + Zsum (map (size_or_zero (fs w)) paths))
        (mkWorld (fs w) (out w)
                 (io w ++ flat_map (size_calls (fs w)) paths)).
Proof.
  induction 1 as [|l p items paths Hl _ IH]; intros rest total_size w.
  - cbn [app map flat_map Zsum foldr]. rewrite Z.add_0_r, app_nil_r.
    destruct w; reflexivity.
  - cbn [app sum_layer_sizes]. rewrite Hl. cbn [lift]. step.
    erewrite bind_ok by apply path_exists_run. cbn beta. cbn [fs out io].
    cbn [map flat_map]. unfold Zsum. cbn [foldr]. fold (Zsum (map (size_or_zero (fs w)) paths)).
    destruct (fs w !! p) as [n|] eqn:Hp.
    + replace (size_or_zero (fs w) p) with (st_size_of n)
        by (unfold size_or_zero; rewrite Hp; reflexivity).
      replace (size_calls (fs w) p) with [Exists p; Getsize p]
        by (unfold size_calls; rewrite Hp; reflexivity).
      rewrite bool_decide_eq_true_2 by eauto.
      erewrite bind_ok by (eapply getsize_found; cbn [fs]; exact Hp).
      cbn beta. rewrite IH. cbn [fs out io].
      rewrite <- !app_assoc, Z.add_assoc. reflexivity.
    + replace (size_or_zero (fs w) p) with 0
        by (unfold size_or_zero; rewrite Hp; reflexivity).
      replace (size_calls (fs w) p) with [Exists p]
        by (unfold size_calls; rewrite Hp; reflexivity).
      rewrite bool_decide_eq_false_2 by (intros [? ?]; discriminate).
      rewrite IH. cbn [fs out io]. rewrite <- !app_assoc, Z.add_0_l.
      reflexivity.
Qed.

(** X16. A layer with no [digest], or with a digest that is not a string or has
    no colon, makes the estimate raise ([KeyError], [AttributeError],
    [IndexError], ...), once the blobs of the layers before it have been
    measured; no file of this layer or of a later one is looked at. *)
Theorem get_model_size_raises_on_unusable_layer
    blob_directory items paths layer_info excp rest w :
  Forall2 (fun l p => source_blob_of blob_directory l = inr p) items paths ->
  source_blob_of blob_directory layer_info = inl excp ->
  get_model_size (Py.JArr (items ++ layer_info :: rest)) blob_directory w
  = (Raise excp,
     mkWorld (fs w) (out w) (io w ++ flat_map (size_calls (fs w)) paths)).
Proof.
  intros Hitems Hbad. unfold get_model_size. cbn [Py.iter lift]. step.
  rewrite (sum_layer_sizes_app _ _ _ Hitems).
  cbn [sum_layer_sizes]. rewrite Hbad. reflexivity.
Qed.

(** ** The chunked strategy and a blob that fails while it is read *)






(** ** The theorems at work on the small model store *)

Ltac holds_json_demo text :=
  exists text; split; [vm_compute; reflexivity | vm_compute; reflexivity].

Lemma in_memory_attempts_every_layer_witness :
  let r := recombine_model_in_memory Demo.blob_dir (Py.JArr Demo.items)
             Demo.modelName Demo.target_subdir Demo.combined_filename
             (boot Demo.files_missing_b) in
  exists evs calls,
    out (snd r) = [] ++ evs
    /\ omap fragment_status evs
       = map (expected_status Demo.files_missing_b) Demo.descs
    /\ io (snd r)
       = [] ++ flat_map (read_calls Demo.files_missing_b)
                        (map snd Demo.descs) ++ calls.
Proof.
  apply (in_memory_attempts_every_layer Demo.blob_dir Demo.modelName
           Demo.target_subdir Demo.combined_filename Demo.items Demo.descs
           (boot Demo.files_missing_b)).
  repeat constructor.
Defined.

Lemma in_memory_failure_writes_nothing_witness :
  let r := recombine_model_in_memory Demo.blob_dir (Py.JArr Demo.items)
             Demo.modelName Demo.target_subdir Demo.combined_filename
             (boot Demo.files_missing_b) in
  fst r = Ok false
  /\ fs (snd r) = Demo.files_missing_b
  /\ io (snd r)
     = [] ++ flat_map (read_calls Demo.files_missing_b) (map snd Demo.descs).
Proof.
  apply (in_memory_failure_writes_nothing Demo.blob_dir Demo.modelName
           Demo.target_subdir Demo.combined_filename Demo.items Demo.descs
           (boot Demo.files_missing_b)).
  - repeat constructor.
  - right. exists (Py.JStr "application/y", Demo.path_b). split.
    + right. left.
    + vm_compute. reflexivity.
Defined.

Lemma get_model_size_sums_existing_witness :
  let r := get_model_size (Py.JArr Demo.items) Demo.blob_dir
                          (boot Demo.files_missing_b) in
  fst r = Ok (Zsum (map (size_or_zero Demo.files_missing_b) Demo.paths))
  /\ fs (snd r) = Demo.files_missing_b
  /\ out (snd r) = [].
Proof.
  apply (get_model_size_sums_existing Demo.blob_dir Demo.items Demo.paths
           (boot Demo.files_missing_b)).
  repeat constructor.
Defined.

Lemma chunked_empty_blob_witness :
  copy_layers [Demo.layer_b] 0 Demo.blob_dir Demo.modelName Demo.final
              default_chunk_size (boot Demo.files_at_threshold)
  = copy_layers [] 1 Demo.blob_dir Demo.modelName Demo.final
      default_chunk_size
      (mkWorld Demo.files_at_threshold
         ([] ++ [Layer_index 0;
                 Status_reading Demo.modelName (Py.JStr "application/y")
                                Demo.path_b (Some 0);
                 Newline;
                 Status_success Demo.modelName (Py.JStr "application/y") 0])
         ([] ++ [Exists Demo.path_b; Getsize Demo.path_b;
                 OpenRead Demo.path_b])).
Proof.
  apply (chunked_empty_blob Demo.blob_dir Demo.modelName Demo.final
           default_chunk_size Demo.layer_b (Py.JStr "application/y")
           Demo.path_b [] 0%nat (boot Demo.files_at_threshold)).
  - split; reflexivity.
  - vm_compute. reflexivity.
Defined.

Lemma strategies_agree_witness :
  let final := Path.join Demo.target_subdir Demo.combined_filename in
  let a := recombine_model_in_memory Demo.blob_dir (Py.JArr Demo.items)
             Demo.modelName Demo.target_subdir Demo.combined_filename
             (boot Demo.files) in
  let b := recombine_model_chunked Demo.blob_dir (Py.JArr Demo.items)
             Demo.modelName Demo.target_subdir Demo.combined_filename 2
             (boot Demo.files) in
  fst a = Ok true
  /\ fst b = Ok true
  /\ fs (snd a)
     = <[final := File (concat Demo.datas)]> (Demo.with_subdir Demo.files)
  /\ fs (snd b) = fs (snd a)
  /\ byte_len (concat Demo.datas) = Zsum (map byte_len Demo.datas).
Proof.
  apply (strategies_agree Demo.blob_dir Demo.modelName Demo.target_subdir
           Demo.combined_filename 2 Demo.items Demo.descs Demo.datas
           (boot Demo.files) (Demo.with_subdir Demo.files)).
  - repeat constructor.
  - repeat constructor; try (vm_compute; reflexivity); discriminate.
  - discriminate.
  - lia.
  - vm_compute. reflexivity.
  - vm_compute. reflexivity.
Defined.

Lemma invalid_file_type_raises_witness :
  let r := recombine_model Json.loads Json.str Demo.manifest_path
             Demo.blob_dir Demo.output_dir (boot Demo.files_no_file_type) in
  (exists cause,
      fst r = Raise (Py.ValueError invalid_file_type (Some cause)))
  /\ fs (snd r) = Demo.files_no_file_type
  /\ out (snd r) = []
  /\ io (snd r) = [OpenRead Demo.manifest_path; OpenRead Demo.path_c].
Proof.
  apply (invalid_file_type_raises Json.loads Json.str Demo.manifest_path
           Demo.blob_dir Demo.output_dir Demo.files_no_file_type Demo.obj
           Demo.path_c (Py.JObj [("model_type", Py.JStr "llama")])).
  - holds_json_demo Demo.manifest_text.
  - reflexivity.
  - holds_json_demo (Json.text "{'model_type':'llama'}").
  - apply (file_type_missing _ (Py.KeyError "file_type")). reflexivity.
Defined.

Lemma missing_layers_raises_witness :
  let r := recombine_model Json.loads Json.str Demo.manifest_path
             Demo.blob_dir Demo.output_dir (boot Demo.files_no_layers) in
  fst r = Raise (Py.ValueError missing_layers None)
  /\ fs (snd r) = Demo.files_no_layers
  /\ out (snd r) = []
  /\ io (snd r) = [OpenRead Demo.manifest_path; OpenRead Demo.path_c].
Proof.
  apply (missing_layers_raises Json.loads Json.str Demo.manifest_path
           Demo.blob_dir Demo.output_dir Demo.files_no_layers
           (Py.JObj [("config", Py.JObj [("digest", Py.JStr "sha256:cc")]);
                     ("layers", Py.JArr [])])
           Demo.path_c Demo.config_data "Q4_0" (Py.JArr [])).
  - holds_json_demo
      (Json.text "{'config':{'digest':'sha256:cc'},'layers':[]}").
  - reflexivity.
  - holds_json_demo Demo.config_text.
  - reflexivity.
  - reflexivity.
  - reflexivity.
Defined.

Lemma strategy_is_strictly_above_threshold_witness :
  let total_size := Zsum (map (size_or_zero Demo.files) Demo.paths) in
  let w1 := mkWorld Demo.files []
              ([] ++ metadata_calls Demo.files Demo.manifest_path
                                    Demo.path_c Demo.paths) in
  let r := recombine_model Json.loads Json.str Demo.manifest_path
             Demo.blob_dir Demo.output_dir (boot Demo.files) in
  total_size <= large_file_threshold
  /\ r = recombine_model_in_memory Demo.blob_dir (Py.JArr Demo.items)
           (Path.basename (Path.dirname Demo.manifest_path))
           (Path.join Demo.output_dir
                      (Path.basename (Path.dirname Demo.manifest_path)))
           (Path.basename (Path.dirname Demo.manifest_path)
            +:+ "-" +:+ "llama" +:+ "-" +:+ "Q4_0" +:+ ".gguf") w1.
Proof.
  assert (H : Zsum (map (size_or_zero Demo.files) Demo.paths)
              <= large_file_threshold) by (vm_compute; discriminate).
  split; [exact H|].
  refine (proj2 (proj2
    (strategy_is_strictly_above_threshold Json.loads Json.str
       Demo.manifest_path Demo.blob_dir Demo.output_dir (boot Demo.files)
       Demo.obj Demo.path_c Demo.config_data "Q4_0" "llama" Demo.items
       Demo.paths _ _ _ _ _ _ _ _)) H).
  - holds_json_demo Demo.manifest_text.
  - reflexivity.
  - holds_json_demo Demo.config_text.
  - reflexivity.
  - reflexivity.
  - reflexivity.
  - discriminate.
  - repeat constructor.
Defined.

(** An estimate that is the threshold to the byte: the run takes the
    in-memory strategy (it prints "Using standard processing", and no line
    of the chunked strategy). *)
Lemma threshold_total_runs_in_memory :
  fst (get_model_size (Py.JArr Demo.items) Demo.blob_dir
                      (boot Demo.files_at_threshold))
  = Ok large_file_threshold
  /\ out (snd (Demo.run Demo.files_at_threshold))
     = [Msg_standard; Msg_reading_layers; Layer_index 0;
        Status_reading "tiny" (Py.JStr "application/x") Demo.path_a None;
        Status_failed "tiny" (Py.JStr "application/x") Demo.path_a
                      (Py.OSError Demo.path_a);
        Layer_index 1;
        Status_reading "tiny" (Py.JStr "application/y") Demo.path_b None;
        Status_success "tiny" (Py.JStr "application/y") 0;
        Msg_errors_occurred "tiny"].
Proof. split; vm_compute; reflexivity. Qed.

Lemma recombine_model_reports_witness :
  created (snd (Demo.run Demo.files))
  /\ failed (snd (Demo.run Demo.files_missing_b))
  /\ (fst (Demo.run Demo.files_no_config)
      = Raise (Py.ValueError "Config section missing from JSON." None)
      /\ fs (snd (Demo.run Demo.files_no_config)) = Demo.files_no_config
      /\ out (snd (Demo.run Demo.files_no_config)) = []).
Proof.
  split; [|split].
  - apply (proj1 (recombine_model_reports Json.loads Json.str
                    Demo.manifest_path Demo.blob_dir Demo.output_dir
                    (boot Demo.files))).
    vm_compute. reflexivity.
  - apply (proj1 (proj2 (recombine_model_reports Json.loads Json.str
                           Demo.manifest_path Demo.blob_dir Demo.output_dir
                           (boot Demo.files_missing_b)))).
    vm_compute. reflexivity.
  - apply (proj2 (proj2 (recombine_model_reports Json.loads Json.str
                           Demo.manifest_path Demo.blob_dir Demo.output_dir
                           (boot Demo.files_no_config)))).
    apply (config_missing _ _ _ _ (Py.JObj [("layers", Py.JArr [])])
                          Py.JNull).
    + holds_json_demo (Json.text "{'layers':[]}").
    + reflexivity.
    + reflexivity.
Defined.

(** A manifest with no [config]: the run does not return; it raises
    [ValueError], and nothing has been printed. *)
Lemma missing_config_is_raised :
  fst (Demo.run Demo.files_no_config)
  = Raise (Py.ValueError "Config section missing from JSON." None)
  /\ out (snd (Demo.run Demo.files_no_config)) = [].
Proof. split; vm_compute; reflexivity. Qed.

Lemma chunked_missing_blob_keeps_partial_file_witness :
  let final := Path.join Demo.target_subdir Demo.combined_filename in
  let r := recombine_model_chunked Demo.blob_dir
             (Py.JArr ([Demo.layer_a] ++ Demo.layer_b :: []))
             Demo.modelName Demo.target_subdir Demo.combined_filename 2
             (boot Demo.files_missing_b) in
  fst r = Ok false
  /\ fs (snd r)
     = <[final := File (concat [Demo.blob_a])]>
         (Demo.with_subdir Demo.files_missing_b)
  /\ last (out (snd r))
     = Some (Blob_not_found Demo.modelName (Py.JStr "application/y")
                            Demo.path_b)
  /\ io (snd r)
     = [] ++ ensure_calls Demo.files_missing_b Demo.target_subdir
       ++ [OpenWrite final]
       ++ flat_map copy_calls (map snd [(Py.JStr "application/x",
                                         Demo.path_a)])
       ++ [Exists Demo.path_b].
Proof.
  apply (chunked_missing_blob_keeps_partial_file Demo.blob_dir
           Demo.modelName Demo.target_subdir Demo.combined_filename 2
           [Demo.layer_a] [(Py.JStr "application/x", Demo.path_a)]
           [Demo.blob_a] Demo.layer_b (Py.JStr "application/y") Demo.path_b
           [] (boot Demo.files_missing_b)
           (Demo.with_subdir Demo.files_missing_b)).
  - repeat constructor.
  - repeat constructor; try (vm_compute; reflexivity); discriminate.
  - split; reflexivity.
  - lia.
  - vm_compute. reflexivity.
  - vm_compute. reflexivity.
  - vm_compute. reflexivity.
  - discriminate.
Defined.

(** The chunked strategy, through [recombine_model], on a first blob that
    gives two bytes and then a read error: the run returns [False] and the
    two bytes are left in the output file. *)
Example large_faulty_blob_leaves_two_bytes :
  let r := Demo.run Demo.files_large_faulty in
  fst r = Ok false
  /\ fs (snd r) !! Demo.final = Some (File [x01; x02])
  /\ last (out (snd r))
     = Some (Status_failed "tiny" (Py.JStr "application/x") Demo.path_a
                           (Py.OSError Demo.path_a)).
Proof. repeat split; vm_compute; reflexivity. Qed.

Lemma recombine_model_assembles_witness :
  let modelName := Path.basename (Path.dirname Demo.manifest_path) in
  let target_subdir := Path.join Demo.output_dir modelName in
  let final :=
    Path.join target_subdir
      (modelName +:+ "-" +:+ "llama" +:+ "-" +:+ "Q4_0" +:+ ".gguf") in
  let r := recombine_model Json.loads Json.str Demo.manifest_path
             Demo.blob_dir Demo.output_dir (boot Demo.files) in
  fst r = Ok true
  /\ fs (snd r)
     = <[final := File (concat Demo.datas)]> (Demo.with_subdir Demo.files)
  /\ last (out (snd r))
     = Some (Msg_created final (byte_len (concat Demo.datas))).
Proof.
  apply (recombine_model_assembles Json.loads Json.str Demo.manifest_path
           Demo.blob_dir Demo.output_dir (boot Demo.files) Demo.obj
           Demo.path_c Demo.config_data "Q4_0" "llama" Demo.items Demo.descs
           Demo.datas (Demo.with_subdir Demo.files)).
  - holds_json_demo Demo.manifest_text.
  - reflexivity.
  - holds_json_demo Demo.config_text.
  - reflexivity.
  - reflexivity.
  - reflexivity.
  - discriminate.
  - repeat constructor.
  - repeat constructor; try (vm_compute; reflexivity); discriminate.
  - vm_compute. reflexivity.
  - vm_compute. reflexivity.
Defined.

Lemma chunked_output_path_is_directory_witness :
  let final := Path.join Demo.target_subdir Demo.combined_filename in
  recombine_model_chunked Demo.blob_dir (Py.JArr Demo.items) Demo.modelName
                          Demo.target_subdir Demo.combined_filename 2
                          (boot Demo.files_final_is_dir)
  = (Ok false,
     mkWorld Demo.files_final_is_dir
       ([] ++ [Msg_chunks 2;
               Msg_chunked_error (Py.IsADirectoryError final)])
       ([] ++ ensure_calls Demo.files_final_is_dir Demo.target_subdir
        ++ [OpenWrite final; Exists final; Remove final])).
Proof.
  apply (chunked_output_path_is_directory Demo.blob_dir (Py.JArr Demo.items)
           Demo.modelName Demo.target_subdir Demo.combined_filename 2
           (boot Demo.files_final_is_dir) Demo.files_final_is_dir 4096).
  - vm_compute. reflexivity.
  - vm_compute. reflexivity.
Defined.

Lemma digest_names_blob_witness :
  source_blob_of Demo.blob_dir
    (Py.JObj [("mediaType", Py.JStr "application/x");
              ("digest", Py.JStr "sha256:aa")])
  = inr (Path.join Demo.blob_dir ("sha256-" +:+ "aa"))
  /\ sha_file_of Demo.blob_dir
       (Py.JObj [("config",
                  Py.JObj [("mediaType", Py.JStr "application/x");
                           ("digest", Py.JStr "sha256:aa")])])
     = inr (Path.join Demo.blob_dir ("sha256-" +:+ "aa")).
Proof.
  apply (digest_names_blob Demo.blob_dir "sha256" "aa"
           [("mediaType", Py.JStr "application/x");
            ("digest", Py.JStr "sha256:aa")]);
    reflexivity.
Defined.

Lemma value_error_is_reported_as_invalid_input_witness :
  Demo.choose Demo.files_no_config "1"
  = (Ok true,
     mkWorld Demo.files_no_config ([] ++ [Msg_invalid_input])
             [OpenRead Demo.manifest_path]).
Proof.
  apply (value_error_is_reported_as_invalid_input Json.loads Json.str
           Json.int [Demo.manifest_path] Demo.blob_dir Demo.output_dir
           "1" 1 Demo.manifest_path
           (Py.ValueError "Config section missing from JSON." None)
           (boot Demo.files_no_config)
           (mkWorld Demo.files_no_config [] [OpenRead Demo.manifest_path])).
  - reflexivity.
  - lia.
  - reflexivity.
  - vm_compute. reflexivity.
  - reflexivity.
Defined.

Lemma other_exception_leaves_main_witness :
  Demo.choose ∅ "1"
  = (Raise (Py.FileNotFoundError Demo.manifest_path),
     mkWorld ∅ [] [OpenRead Demo.manifest_path]).
Proof.
  apply (other_exception_leaves_main Json.loads Json.str Json.int
           [Demo.manifest_path] Demo.blob_dir Demo.output_dir
           "1" 1 Demo.manifest_path
           (Py.FileNotFoundError Demo.manifest_path) (boot ∅)).
  - reflexivity.
  - lia.
  - reflexivity.
  - vm_compute. reflexivity.
  - reflexivity.
Defined.

Lemma rejected_line_only_prints_witness :
  Demo.choose Demo.files "7"
  = (Ok true,
     mkWorld Demo.files ([] ++ [rejection (Json.int "7")]) [])
  /\ Demo.choose Demo.files "seven"
     = (Ok true,
        mkWorld Demo.files ([] ++ [rejection (Json.int "seven")]) []).
Proof.
  split.
  - apply (rejected_line_only_prints Json.loads Json.str Json.int
             [Demo.manifest_path] Demo.blob_dir Demo.output_dir "7"
             (boot Demo.files)).
    right. reflexivity.
  - apply (rejected_line_only_prints Json.loads Json.str Json.int
             [Demo.manifest_path] Demo.blob_dir Demo.output_dir "seven"
             (boot Demo.files)).
    exact I.
Defined.

Lemma main_returns_only_by_break_witness :
  let r := Demo.session Demo.files ["1"; "0"] in
  ([Demo.manifest_path] = []
   /\ last (out (snd r)) = Some Msg_no_manifests)
  \/ ([Demo.manifest_path] <> []
      /\ last (out (snd r)) = Some Msg_exiting
      /\ exists line, line ∈ ["1"; "0"] /\ Json.int line = Some 0).
Proof.
  apply (main_returns_only_by_break Json.loads Json.str Json.int
           [Demo.manifest_path] Demo.blob_dir Demo.output_dir ["1"; "0"]
           (boot Demo.files)).
  vm_compute. reflexivity.
Defined.

Lemma listing_survives_unreadable_configuration_witness :
  let total := Zsum (map (size_or_zero Demo.files_no_configuration)
                         Demo.paths) in
  list_model Json.loads Demo.blob_dir 1 Demo.manifest_path
             (boot Demo.files_no_configuration)
  = (Ok tt,
     mkWorld Demo.files_no_configuration
       ([] ++ [Listing 1
                 (Path.basename (Path.dirname Demo.manifest_path))
                 (Path.basename Demo.manifest_path) unknown
                 (if Z.gtb total 0 then Some total else None)])
       ([] ++ metadata_calls Demo.files_no_configuration
                Demo.manifest_path Demo.path_c Demo.paths)).
Proof.
  apply (listing_survives_unreadable_configuration Json.loads Demo.blob_dir
           1 Demo.manifest_path (boot Demo.files_no_configuration) Demo.obj
           Demo.path_c Demo.items Demo.paths).
  - holds_json_demo Demo.manifest_text.
  - reflexivity.
  - intros config_data (text & Htext & _). vm_compute in Htext.
    discriminate Htext.
  - reflexivity.
  - repeat constructor.
Defined.

Lemma listing_raises_on_null_layers_witness :
  let r := list_model Json.loads Demo.blob_dir 1 Demo.manifest_path
                      (boot Demo.files_null_layers) in
  fst r = Raise Py.TypeError
  /\ out (snd r) = []
  /\ fs (snd r) = Demo.files_null_layers.
Proof.
  apply (listing_raises_on_null_layers Json.loads Demo.blob_dir 1
           Demo.manifest_path (boot Demo.files_null_layers)
           [("config", Py.JObj [("digest", Py.JStr "sha256:cc")]);
            ("layers", Py.JNull)]
           Demo.path_c).
  - holds_json_demo Demo.null_layers_text.
  - reflexivity.
  - reflexivity.
Defined.

Lemma model_name_of_manifest_path_witness :
  let manifest_path := ("/m/library" +:+ "/" +:+ "tiny") +:+ String "/" "latest" in
  Path.dirname manifest_path = "/m/library" +:+ "/" +:+ "tiny"
  /\ Path.basename (Path.dirname manifest_path) = "tiny"
  /\ Path.basename manifest_path = "latest".
Proof.
  apply (model_name_of_manifest_path "/m/library" "tiny" "latest");
    [reflexivity|discriminate|reflexivity].
Defined.

Lemma get_model_size_raises_on_unusable_layer_witness :
  get_model_size
    (Py.JArr ([Demo.layer_a] ++ Demo.layer_no_digest :: [Demo.layer_b]))
    Demo.blob_dir (boot Demo.files)
  = (Raise (Py.KeyError "digest"),
     mkWorld Demo.files []
             ([] ++ flat_map (size_calls Demo.files) [Demo.path_a])).
Proof.
  apply (get_model_size_raises_on_unusable_layer Demo.blob_dir
           [Demo.layer_a] [Demo.path_a] Demo.layer_no_digest
           (Py.KeyError "digest") [Demo.layer_b] (boot Demo.files)).
  - repeat constructor.
  - reflexivity.
Defined.

